(** * Day After Day: the serverless handlers of the minting backend

    A shallow embedding of the HTTP handlers [api/recover.js],
    [api/test-mint.js] and [api/upload.js].  Each handler is a short
    sequence of awaited calls to outside services (the key-value store,
    the wallet deriver, the chain client, the pinning service, the poll
    handler) wrapped in one [try]/[catch].  The embedding threads a
    [World] through the calls, in a state-and-exception monad [M]; the
    services whose code is not part of the handlers are the fields of a
    [Services] record. *)

From Stdlib Require Import ZArith QArith String Ascii List Sorted Lia.
From stdpp Require Import base option gmap strings pretty list.

Local Open Scope string_scope.
Local Open Scope Z_scope.

(** ** JavaScript values the handlers exchange *)

(** A JSON document, as passed to [res.json(...)].  JavaScript numbers
    are modelled by the rationals they denote (no NaN, no infinity). *)
#[warnings="-register-all"]
Inductive Json : Type :=
| JNull
| JBool (b : bool)
| JNum (q : Q)
| JStr (s : string)
| JArr (items : list Json)
| JObj (fields : list (string * Json)).

(** A nullable string field ([null] or a string). *)
Definition JNullable (o : option string) : Json :=
  match o with
  | Some s => JStr s
  | None => JNull
  end.

(** A value of [req.query] or of formidable's [fields]: missing, one
    string, or the (non-empty) array of strings of a repeated name. *)
Inductive QVal : Type :=
| QUndef
| QStr (s : string)
| QArr (first : string) (rest : list string).

(** [!v] *)
Definition falsy (v : QVal) : bool :=
  match v with
  | QUndef => true
  | QStr s => if decide (s = "") then true else false
  | QArr _ _ => false
  end.

(** [`${v}`] for a value that reaches a template literal: an array is
    joined with commas. *)
Fixpoint join (sep : string) (l : list string) : string :=
  match l with
  | [] => ""
  | [s] => s
  | s :: rest => s +:+ sep +:+ join sep rest
  end.

Definition template (v : QVal) : string :=
  match v with
  | QUndef => "undefined"
  | QStr s => s
  | QArr first rest => join "," (first :: rest)
  end.

(** [v === e] for a query value against an environment variable (a
    string, or [undefined] when unset). An array is never [===] to a
    string. *)
Definition strict_eq_env (v : QVal) (e : option string) : bool :=
  match v, e with
  | QUndef, None => true
  | QStr s, Some s' => if decide (s = s') then true else false
  | _, _ => false
  end.

(** [v === 'literal'] *)
Definition strict_eq_lit (v : QVal) (lit : string) : bool :=
  match v with
  | QStr s => if decide (s = lit) then true else false
  | _ => false
  end.

(** [x < y] on numbers. *)
Definition Qltb (x y : Q) : bool :=
  (Qnum x * Zpos (Qden y) <? Qnum y * Zpos (Qden x))%Z.

(** ** The session record (the only persistent entity) *)

Inductive Status : Type := pending | paid | minted.

Global Instance Status_eq_dec : EqDecision Status.
Proof. solve_decision. Defined.

Record Metadata : Type := {
  mode : string;
  speed : Q;
  fileUri : string;
  answers : list (string * string);
}.

Record Session : Type := {
  sessionId : string;
  sessionIndex : Z;
  paymentAddress : string;
  outputType : string;
  metadata : Metadata;
  status : Status;
  createdAt : Z;
  expiresAt : Z;
  requiredUsdc : Q;
  buyerWallet : string;
  mintAddress : option string;
  mintSignature : option string;
  sweepSignature : option string;
}.

(** ** The world a request runs in *)

(** Modelled from the spec: the state of the key-value store behind
    [lib/redis.js], "JSON session object ... stored under key
    session:<sessionId> with a time-to-live; a separate integer counter
    under a fixed key".  Integer counters, session records (each with
    the time-to-live it was written with), and whether the store can be
    reached ([fault = Some msg]: every call throws [msg]). *)
Record Store : Type := {
  fault : option string;
  counters : gmap string Z;
  records : gmap string (Session * Z);
}.

Record PollRequest : Type := {
  p_method : string;
  p_sessionId : QVal;
  p_test : option string;
}.

(** What the handlers do to the outside, in order. [EvMintBroadcast] and
    [EvSweepBroadcast] are the transactions of the lifecycle (poll)
    handler; no handler below emits them itself. *)
Inductive Event : Type :=
| EvRedisGet (key : string)
| EvRedisGetJson (key : string)
| EvRedisIncr (key : string)
| EvRedisSet (key : string) (ttl : Z)
| EvGetConnection
| EvDeriveMaster
| EvDerive (index : Z)
| EvBalance (address : string)
| EvPoll (q : PollRequest)
| EvMintBroadcast (session : string)
| EvSweepBroadcast (session : string)
| EvReadFile (path : string)
| EvPin (filename : string)
| EvUnlink (path : string).

Definition is_broadcast (e : Event) : bool :=
  match e with
  | EvMintBroadcast _ | EvSweepBroadcast _ => true
  | _ => false
  end.

Definition is_store_write (e : Event) : bool :=
  match e with
  | EvRedisIncr _ | EvRedisSet _ _ => true
  | _ => false
  end.

Record World : Type := {
  kv : Store;
  ticks : nat;
  trace : list Event;
}.

(** ** Results, and the monad of a handler body *)

Inductive Res (A : Type) : Type :=
| Ok (a : A)
| Threw (msg : string).
Arguments Ok {A} a.
Arguments Threw {A} msg.

Definition M (A : Type) : Type := World -> World * Res A.

Global Instance M_ret : MRet M := fun A a w => (w, Ok a).

Global Instance M_bind : MBind M := fun A B f m w =>
  match m w with
  | (w', Ok a) => f a w'
  | (w', Threw msg) => (w', Threw msg)
  end.

Definition emit (e : Event) : M unit :=
  fun w => ({| kv := kv w; ticks := ticks w; trace := (trace w ++ [e])%list |}, Ok tt).

(** A call to a service that answers or throws, without touching the
    store. *)
Definition lift {A : Type} (r : Res A) : M A := fun w => (w, r).

Definition throw {A : Type} (msg : string) : M A := lift (Threw msg).

Definition get_store : M Store := fun w => (w, Ok (kv w)).

Definition put_store (s : Store) : M unit :=
  fun w => ({| kv := s; ticks := ticks w; trace := trace w |}, Ok tt).

Record HttpResponse : Type := {
  code : Z;
  body : option Json;
}.

(** [res.status(c).json(d)] and [res.status(c).end()]. *)
Definition respond (c : Z) (d : Json) : HttpResponse :=
  {| code := c; body := Some d |}.

Definition respond_end (c : Z) : HttpResponse :=
  {| code := c; body := None |}.

(** [try { ... } catch (err) { return res.status(500).json({ error: err.message }) }] *)
Definition try_catch (m : M HttpResponse) : World -> World * HttpResponse :=
  fun w =>
    match m w with
    | (w', Ok r) => (w', r)
    | (w', Threw msg) => (w', respond 500 (JObj [("error", JStr msg)]))
    end.

(** ** The services behind the handlers *)

Inductive Connection : Type := RpcConnection (endpoint : string).

Record Keypair : Type := { publicKey : string (* base58 *) }.

(** What the poll handler did to the response object it was given: the
    last [status(c)] and the last [json(d)] it called, if any. *)
Record PollOutcome : Type := {
  statusCall : option Z;
  jsonCall : option Json;
}.

Record PinData : Type := {
  IpfsHash : option string;
  stringified : string;   (* JSON.stringify(pinData) *)
}.

Record Services : Type := {
  (* lib/wallet.js *)
  wallet_getMasterKeypair : Res Keypair;
  wallet_getSessionKeypair : Z -> Res Keypair;
  (* lib/solana.js *)
  solana_getConnection : Res Connection;
  solana_getUsdcBalance : Connection -> string -> Res Q;
  REQUIRED_USDC : Q;
  (* api/poll/[sessionId].js *)
  pollHandler : PollRequest -> World -> World * Res PollOutcome;
  (* Date.now(): the n-th reading of the clock *)
  clock : nat -> Z;
  (* fs.readFileSync, the pinning service *)
  fs_readFileSync : string -> Res (list Byte.byte);
  pinata_pinFileToIPFS :
    string -> string -> string -> list Byte.byte -> Res PinData;
}.

Definition counterKey : string := "day-after-day:session-counter".

(** One awaited call to the store: it is logged, throws when the store
    cannot be reached, and otherwise runs [f] on the store. *)
Definition storeCall {A : Type} (e : Event) (f : Store -> Store * A) : M A :=
  _ ← emit e;
  s ← get_store;
  match fault s with
  | Some msg => throw msg
  | None =>
      let '(s', a) := f s in
      _ ← put_store s';
      mret a
  end.

(** Modelled from the spec: [redis.get] of the store wrapper
    [lib/redis.js], which is not among the sources; the store is "a
    key-value store (session state)" with "a separate integer counter
    under a fixed key".  It reads what the key holds. *)
Definition redis_get (key : string) : M (option Z) :=
  storeCall (EvRedisGet key) (fun s => (s, counters s !! key)).

(** Modelled from the spec: [redis.getJson] of [lib/redis.js]; the
    store "stores JSON session records keyed by session id, with
    expiry".  It reads the record under the key, [null] when there is
    none. *)
Definition redis_getJson (key : string) : M (option Session) :=
  storeCall (EvRedisGetJson key) (fun s => (s, fst <$> records s !! key)).

(** Modelled from the spec: [redis.incr] of [lib/redis.js]; "a counter
    key yields sequential session indices".  It adds one to the counter
    (0 when absent) and returns the new value. *)
Definition redis_incr (key : string) : M Z :=
  storeCall (EvRedisIncr key) (fun s =>
    let n := default 0 (counters s !! key) + 1 in
    ({| fault := fault s;
        counters := <[key := n]> (counters s);
        records := records s |}, n)).

(** Modelled from the spec: [redis.set] of [lib/redis.js]; the record
    is "stored under key session:<sessionId> with a time-to-live". *)
Definition redis_set (key : string) (v : Session) (ttl : Z) : M unit :=
  storeCall (EvRedisSet key ttl) (fun s =>
    ({| fault := fault s;
        counters := counters s;
        records := <[key := (v, ttl)]> (records s) |}, tt)).

Section Calls.
Variable svc : Services.

Definition getConnection : M Connection :=
  _ ← emit EvGetConnection; lift (solana_getConnection svc).

Definition getMasterKeypair : M Keypair :=
  _ ← emit EvDeriveMaster; lift (wallet_getMasterKeypair svc).

Definition getSessionKeypair (i : Z) : M Keypair :=
  _ ← emit (EvDerive i); lift (wallet_getSessionKeypair svc i).

Definition getUsdcBalance (c : Connection) (address : string) : M Q :=
  _ ← emit (EvBalance address); lift (solana_getUsdcBalance svc c address).

Definition callPoll (q : PollRequest) : M PollOutcome :=
  _ ← emit (EvPoll q); pollHandler svc q.

Definition Date_now : M Z :=
  fun w => ({| kv := kv w; ticks := S (ticks w); trace := trace w |},
            Ok (clock svc (ticks w))).
End Calls.

(** ** api/recover.js *)

Module Recover.

Record Request : Type := {
  method : string;
  q_sessionId : QVal;
  q_secret : QVal;
}.

Record Env : Type := { RECOVER_SECRET : option string }.

(** [parseInt(counter || '0')] on what the counter key holds. *)
Definition parseCounter (counter : option Z) : Z := default 0 counter.

Definition walletEntry (i : Z) (address : string) (bal : Q) : Json :=
  JObj [("index", JNum (inject_Z i)); ("address", JStr address);
        ("balance", JNum bal)].

Section Handler.
Variable svc : Services.

(** The [for (let i = ...; i <= total; i++)] loop.  [n] bounds the
    iterations still allowed; the loop ends by its test [i <= total],
    and [scan] allows as many iterations as there are indices left. *)
Fixpoint scanLoop (n : nat) (i total : Z) (found : list Json)
  : M (list Json) :=
  match n with
  | O => mret found
  | S n' =>
      if i <=? total then
        connection ← getConnection svc;
        kp ← getSessionKeypair svc i;
        bal ← getUsdcBalance svc connection (publicKey kp);
        let found' :=
          if Qltb 0 bal
          then (found ++ [walletEntry i (publicKey kp) bal])%list
          else found in
        scanLoop n' (i + 1) total found'
      else mret found
  end.

Definition scan : M HttpResponse :=
  counter ← redis_get counterKey;
  let total := parseCounter counter in
  let start := Z.max 1 (total - 20) in
  found ← scanLoop (Z.to_nat (total + 1 - start)) start total [];
  mret (respond 200 (JObj [("scanned", JNum (inject_Z total));
                           ("walletsWithUsdc", JArr found)])).

Definition sessionKey (sessionId : QVal) : string :=
  "session:" +:+ template sessionId.

Definition recoverSession (sessionId : QVal) : M HttpResponse :=
  session ← redis_getJson (sessionKey sessionId);
  match session with
  | None => mret (respond 404 (JObj [("error", JStr "Session not found")]))
  | Some session =>
      if decide (status session = minted) then
        mret (respond 200
                (JObj [("status", JStr "already minted");
                       ("mintAddress", JNullable (mintAddress session))]))
      else
        connection ← getConnection svc;
        sessionKeypair ← getSessionKeypair svc (sessionIndex session);
        balance ← getUsdcBalance svc connection (publicKey sessionKeypair);
        if Qltb balance (REQUIRED_USDC svc) then
          mret (respond 200
                  (JObj [("status", JStr "insufficient balance");
                         ("balance", JNum balance);
                         ("required", JNum (REQUIRED_USDC svc));
                         ("address", JStr (publicKey sessionKeypair))]))
        else
          out ← callPoll svc {| p_method := "GET";
                                p_sessionId := sessionId;
                                p_test := None |};
          mret (respond 200
                  (JObj [("triggered", JBool true);
                         ("result", default JNull (jsonCall out))]))
  end.

Definition authorized (env : Env) (secret : QVal) : bool :=
  strict_eq_env secret (RECOVER_SECRET env)
  || strict_eq_lit secret "dayafterday2026".

Definition handler (env : Env) (req : Request)
  : World -> World * HttpResponse :=
  if decide (method req = "OPTIONS") then fun w => (w, respond_end 200)
  else if negb (bool_decide (method req = "GET")) then
    fun w => (w, respond 405 (JObj [("error", JStr "Method not allowed")]))
  else if negb (authorized env (q_secret req)) then
    fun w => (w, respond 401 (JObj [("error", JStr "Unauthorized")]))
  else
    try_catch
      (if falsy (q_sessionId req) then scan
       else recoverSession (q_sessionId req)).
End Handler.

End Recover.

(** ** api/test-mint.js *)

Module TestMint.

Record Request : Type := { method : string }.

(** [`sess_${sessionIndex}_${Date.now()}`] *)
Definition sessionIdOf (index now : Z) : string :=
  "sess_" +:+ pretty index +:+ "_" +:+ pretty now.

Definition newSession (REQUIRED : Q) (sessionIndex : Z)
    (paymentAddress buyer : string) (idNow createdNow expiresNow : Z)
  : Session :=
  {| sessionId := sessionIdOf sessionIndex idNow;
     sessionIndex := sessionIndex;
     paymentAddress := paymentAddress;
     outputType := "photo";
     metadata :=
       {| mode := "ember";
          speed := 1;
          fileUri := "https://gateway.pinata.cloud/ipfs/bafkreigb4doitxxcdanajpe73f4bl7d3pn4iejt2vbpna4freziluvixyq";
          answers := [("test", "true")] |};
     status := pending;
     createdAt := createdNow;
     expiresAt := expiresNow + 60 * 30 * 1000;
     requiredUsdc := REQUIRED;
     buyerWallet := buyer;
     mintAddress := None;
     mintSignature := None;
     sweepSignature := None |}.

Section Handler.
Variable svc : Services.

(** "Create a test session": from [redis.incr] to [redis.set]. *)
Definition createSession : M Session :=
  sessionIndex ← redis_incr counterKey;
  masterKeypair ← getMasterKeypair svc;
  sessionKeypair ← getSessionKeypair svc sessionIndex;
  let paymentAddress := publicKey sessionKeypair in
  idNow ← Date_now svc;
  createdNow ← Date_now svc;
  expiresNow ← Date_now svc;
  let session :=
    newSession (REQUIRED_USDC svc) sessionIndex paymentAddress
      (publicKey masterKeypair) idNow createdNow expiresNow in
  _ ← redis_set ("session:" +:+ sessionId session) session (60 * 30);
  mret session.

Definition handler (req : Request) : World -> World * HttpResponse :=
  if decide (method req = "OPTIONS") then fun w => (w, respond_end 200)
  else
    try_catch
      (session ← createSession;
       out ← callPoll svc {| p_method := "GET";
                             p_sessionId := QStr (sessionId session);
                             p_test := Some "true" |};
       mret (respond (default 200 (statusCall out))
               (JObj [("sessionId", JStr (sessionId session));
                      ("paymentAddress", JStr (paymentAddress session));
                      ("mintResult", default JNull (jsonCall out))]))).
End Handler.

End TestMint.

(** ** api/upload.js *)

Module Upload.

Record File : Type := {
  filepath : string;
  mimetype : option string;
}.

(** [files.file]: missing, one file, or an array of files. *)
Inductive FilesField : Type :=
| FilesUndef
| FilesOne (f : File)
| FilesArr (l : list File).

Record Form : Type := {
  files_file : FilesField;
  fields_outputType : QVal;
}.

(** The request, with what [form.parse] makes of its multipart body
    (a body that formidable refuses makes the parse throw). *)
Record Request : Type := {
  method : string;
  parsed : Res Form;
}.

Record Env : Type := { PINATA_JWT : option string }.

(** [String.prototype.trim], on the ASCII white space. *)
Definition isWhitespace (c : ascii) : bool :=
  match N_of_ascii c with
  | 9%N | 10%N | 11%N | 12%N | 13%N | 32%N => true
  | _ => false
  end.

Fixpoint trimStart (s : string) : string :=
  match s with
  | EmptyString => EmptyString
  | String c rest => if isWhitespace c then trimStart rest else s
  end.

Definition reverse (s : string) : string :=
  string_of_list_ascii (rev (list_ascii_of_string s)).

Definition trim (s : string) : string :=
  reverse (trimStart (reverse (trimStart s))).

(** [s.split(sep)] for a one-character separator. *)
Fixpoint split (sep : ascii) (s : string) : list string :=
  match s with
  | EmptyString => [EmptyString]
  | String c rest =>
      let parts := split sep rest in
      if decide (c = sep) then EmptyString :: parts
      else match parts with
           | p :: ps => String c p :: ps
           | [] => [String c EmptyString]
           end
  end.

(** [x || d] on strings that may be undefined. *)
Definition orElse (x : option string) (d : string) : string :=
  match x with
  | Some s => if decide (s = "") then d else s
  | None => d
  end.

(** [Array.isArray(files.file) ? files.file[0] : files.file] *)
Definition pickFile (f : FilesField) : option File :=
  match f with
  | FilesUndef => None
  | FilesOne x => Some x
  | FilesArr l => head l
  end.

Definition pickMimeType (file : File) : string :=
  orElse (mimetype file) "video/webm".

(** [Array.isArray(fields.outputType) ? fields.outputType[0]
     : (fields.outputType || 'video')] *)
Definition pickOutputType (v : QVal) : string :=
  match v with
  | QArr first _ => first
  | QStr s => orElse (Some s) "video"
  | QUndef => orElse None "video"
  end.

(** [mimeType.split('/')[1]?.split(';')[0] || 'bin'] *)
Definition extension (mimeType : string) : string :=
  orElse (part ← split "/" mimeType !! 1%nat; head (split ";" part)) "bin".

Definition gateway : string := "https://gateway.pinata.cloud/ipfs/".

(** The body of the successful answer. *)
Definition successBody (fileUri cid mimeType outputType : string) : Json :=
  JObj [("success", JBool true); ("fileUri", JStr fileUri);
        ("cid", JStr cid); ("mimeType", JStr mimeType);
        ("outputType", JStr outputType)].

Section Handler.
Variable svc : Services.

Definition upload (env : Env) (req : Request) : M HttpResponse :=
  let pinataJwt := trim (default "" (PINATA_JWT env)) in
  if decide (pinataJwt = "") then throw "PINATA_JWT not configured"
  else
    form ← lift (parsed req);
    match pickFile (files_file form) with
    | None => throw "No file provided"
    | Some file =>
        _ ← emit (EvReadFile (filepath file));
        fileBuffer ← lift (fs_readFileSync svc (filepath file));
        let mimeType := pickMimeType file in
        let outputType := pickOutputType (fields_outputType form) in
        let ext := extension mimeType in
        now ← Date_now svc;
        let filename := "day-after-day-" +:+ pretty now +:+ "." +:+ ext in
        _ ← emit (EvPin filename);
        pinData ← lift (pinata_pinFileToIPFS svc pinataJwt filename
                          mimeType fileBuffer);
        match IpfsHash pinData with
        | Some (String c rest) =>
            let cid := String c rest in
            let fileUri := gateway +:+ cid in
            _ ← emit (EvUnlink (filepath file));
            mret (respond 200 (successBody fileUri cid mimeType outputType))
        | _ => throw ("Pinata upload failed: " +:+ stringified pinData)
        end
    end.

Definition handler (env : Env) (req : Request)
  : World -> World * HttpResponse :=
  if decide (method req = "OPTIONS") then fun w => (w, respond_end 200)
  else if negb (bool_decide (method req = "POST")) then
    fun w => (w, respond 405 (JObj [("error", JStr "Method not allowed")]))
  else try_catch (upload env req).
End Handler.

End Upload.

(** ** The lifecycle (poll) handler the two handlers above call into *)

Module Poll.

Record Chain : Type := {
  sessionKeypair : Z -> Res Keypair;
  usdcBalance : string -> Res Q;
  mintNft : Session -> Res (string * string);  (* mint address, signature *)
  sweepUsdc : Session -> Res string;           (* sweep signature *)
}.

Definition withMint (s : Session) (address signature : string) : Session :=
  {| sessionId := sessionId s; sessionIndex := sessionIndex s;
     paymentAddress := paymentAddress s; outputType := outputType s;
     metadata := metadata s; status := minted;
     createdAt := createdAt s; expiresAt := expiresAt s;
     requiredUsdc := requiredUsdc s; buyerWallet := buyerWallet s;
     mintAddress := Some address; mintSignature := Some signature;
     sweepSignature := sweepSignature s |}.

Definition withSweep (s : Session) (signature : string) : Session :=
  {| sessionId := sessionId s; sessionIndex := sessionIndex s;
     paymentAddress := paymentAddress s; outputType := outputType s;
     metadata := metadata s; status := status s;
     createdAt := createdAt s; expiresAt := expiresAt s;
     requiredUsdc := requiredUsdc s; buyerWallet := buyerWallet s;
     mintAddress := mintAddress s; mintSignature := mintSignature s;
     sweepSignature := Some signature |}.

Definition answer (c : Z) (d : Json) : PollOutcome :=
  {| statusCall := Some c; jsonCall := Some d |}.

Definition ttlOf (s : Store) (key : string) : Z :=
  default (60 * 30) (snd <$> records s !! key).

Section Handler.
Variable chain : Chain.

(** Modelled from the spec: the transition of section 4.1 on a
    session that exists (see [handler] below). *)
Definition advance (key : string) (session : Session) (test : bool)
  : M PollOutcome :=
  if decide (status session = minted) then
    mret (answer 200 (JObj [("status", JStr "minted");
                            ("mintAddress", JNullable (mintAddress session))]))
  else
    enough ←
      (if test then mret true
       else
         kp ← lift (sessionKeypair chain (sessionIndex session));
         _ ← emit (EvBalance (publicKey kp));
         balance ← lift (usdcBalance chain (publicKey kp));
         mret (negb (Qltb balance (requiredUsdc session))));
    if negb enough then
      mret (answer 200 (JObj [("status", JStr "insufficient")]))
    else
      _ ← emit (EvMintBroadcast (sessionId session));
      '(address, signature) ← lift (mintNft chain session);
      st ← get_store;
      let ttl := ttlOf st key in
      let mintedSession := withMint session address signature in
      _ ← redis_set key mintedSession ttl;
      _ ← emit (EvSweepBroadcast (sessionId session));
      sweep ← lift (sweepUsdc chain mintedSession);
      _ ← redis_set key (withSweep mintedSession sweep) ttl;
      mret (answer 200 (JObj [("status", JStr "minted");
                              ("mintAddress", JStr address)])).

(** Modelled from the spec: the lifecycle handler
    [api/poll/[sessionId].js] (section 4.1), which is not among the
    sources.  "Preconditions checked, in order: session exists (else
    NOT_FOUND); status not already minted (else short-circuit success
    with recorded mint address); balance at paymentAddress >=
    requiredUsdc (else returns insufficient, no state change) --
    bypassed entirely when test is set.  On success path: invoke
    Minting Client ... on success, write mintAddress/mintSignature,
    set status minted, invoke Chain Client sweep ..., record
    sweepSignature.  Failure: any SDK call throwing surfaces as a
    generic server error with the underlying message". *)
Definition handler (q : PollRequest) : World -> World * Res PollOutcome :=
  fun w =>
    let body : M PollOutcome :=
      if falsy (p_sessionId q) then
        mret (answer 400 (JObj [("error", JStr "Missing sessionId")]))
      else
        let key := "session:" +:+ template (p_sessionId q) in
        session ← redis_getJson key;
        match session with
        | None => mret (answer 404 (JObj [("error", JStr "Session not found")]))
        | Some session =>
            advance key session (bool_decide (p_test q = Some "true"))
        end in
    match body w with
    | (w', Ok out) => (w', Ok out)
    | (w', Threw msg) => (w', Ok (answer 500 (JObj [("error", JStr msg)])))
    end.
End Handler.

End Poll.

(** ** Properties of records, stores and traces used in the statements *)

(** [mintAddress] is non-null exactly when the session is minted. *)
Definition mint_inv (s : Session) : Prop :=
  mintAddress s <> None <-> status s = minted.

Definition store_inv (st : Store) : Prop :=
  map_Forall (fun _ (r : Session * Z) => mint_inv (fst r)) (records st).

(** A computation that keeps [store_inv] true of the store. *)
Definition preserves {A : Type} (m : M A) : Prop :=
  forall w, store_inv (kv w) -> store_inv (kv (fst (m w))).

(** The events a run appended to the trace. *)
Definition emitted (w w' : World) (evs : list Event) : Prop :=
  trace w' = (trace w ++ evs)%list.

(** The world [w] after the events [evs], the store untouched. *)
Definition logged (w : World) (evs : list Event) : World :=
  {| kv := kv w; ticks := ticks w; trace := (trace w ++ evs)%list |}.

(** Neither a store write, nor a poll invocation, nor a broadcast. *)
Definition read_only (e : Event) : bool :=
  match e with
  | EvRedisIncr _ | EvRedisSet _ _ | EvPoll _
  | EvMintBroadcast _ | EvSweepBroadcast _ => false
  | _ => true
  end.

(** Field access on a JSON object. *)
Fixpoint assoc (k : string) (l : list (string * Json)) : option Json :=
  match l with
  | [] => None
  | (k', v) :: rest => if decide (k = k') then Some v else assoc k rest
  end.

Definition field (k : string) (j : Json) : option Json :=
  match j with
  | JObj l => assoc k l
  | _ => None
  end.

(** The three events of one probe of the scan loop. *)
Definition probe (address : Z -> string) (i : Z) : list Event :=
  [EvGetConnection; EvDerive i; EvBalance (address i)].

(** The entries the scan reports for the indices [idxs]. *)
Definition reported (address : Z -> string) (balance : Z -> Q)
    (idxs : list Z) : list Json :=
  map (fun i => Recover.walletEntry i (address i) (balance i))
      (filter (fun i => Qltb 0 (balance i) = true) idxs).

(** The session indices whose wallet a run derived, in order. *)
Definition derivedIndices (tr : list Event) : list Z :=
  omap (fun e => match e with EvDerive i => Some i | _ => None end) tr.

(** The addresses whose balance a run queried, in order. *)
Definition queriedAddresses (tr : list Event) : list string :=
  omap (fun e => match e with EvBalance a => Some a | _ => None end) tr.

(** The indices the scan loop runs over: [Math.max(1, total - 20)] up
    to [total], both included. *)
Definition scanWindow (total : Z) : list Z :=
  seqZ (Z.max 1 (total - 20)) (total + 1 - Z.max 1 (total - 20)).

(** "The last 20 session indices" under a counter at [total]. *)
Definition last20 (total : Z) : list Z := seqZ (total - 19) 20.

(** The answers of [api/recover.js]. *)
Definition unauthorized : HttpResponse :=
  respond 401 (JObj [("error", JStr "Unauthorized")]).

Definition alreadyMinted (s : Session) : HttpResponse :=
  respond 200 (JObj [("status", JStr "already minted");
                     ("mintAddress", JNullable (mintAddress s))]).

Definition insufficient (balance required : Q) (address : string)
  : HttpResponse :=
  respond 200 (JObj [("status", JStr "insufficient balance");
                     ("balance", JNum balance);
                     ("required", JNum required);
                     ("address", JStr address)]).

Definition scanned (total : Z) (found : list Json) : HttpResponse :=
  respond 200 (JObj [("scanned", JNum (inject_Z total));
                     ("walletsWithUsdc", JArr found)]).

Definition triggered (out : Res PollOutcome) : HttpResponse :=
  match out with
  | Ok out => respond 200 (JObj [("triggered", JBool true);
                                 ("result", default JNull (jsonCall out))])
  | Threw msg => respond 500 (JObj [("error", JStr msg)])
  end.

(** The request [api/test-mint.js] hands to the poll handler, and the
    answer it builds from the outcome. *)
Definition testPoll (s : Session) : PollRequest :=
  {| p_method := "GET"; p_sessionId := QStr (sessionId s);
     p_test := Some "true" |}.

Definition testMinted (s : Session) (out : Res PollOutcome) : HttpResponse :=
  match out with
  | Ok out =>
      respond (default 200 (statusCall out))
        (JObj [("sessionId", JStr (sessionId s));
               ("paymentAddress", JStr (paymentAddress s));
               ("mintResult", default JNull (jsonCall out))])
  | Threw msg => respond 500 (JObj [("error", JStr msg)])
  end.

(** The request [api/recover.js] hands to the poll handler. *)
Definition recoverPoll (sid : QVal) : PollRequest :=
  {| p_method := "GET"; p_sessionId := sid; p_test := None |}.

(** ** Concrete services, stores and requests, to run the handlers on *)

Module Demo.

Definition keypairOf (i : Z) : Keypair :=
  {| publicKey := "wallet-" +:+ pretty i |}.

Definition connection : Connection :=
  RpcConnection "https://rpc.example/solana".

Definition chain (balance : string -> Q) : Poll.Chain :=
  {| Poll.sessionKeypair := fun i => Ok (keypairOf i);
     Poll.usdcBalance := fun a => Ok (balance a);
     Poll.mintNft := fun s => Ok ("mint-" +:+ sessionId s, "mintsig-" +:+ sessionId s);
     Poll.sweepUsdc := fun s => Ok ("sweepsig-" +:+ sessionId s) |}.

Definition services (required : Q) (balance : string -> Q) : Services :=
  {| wallet_getMasterKeypair := Ok {| publicKey := "master" |};
     wallet_getSessionKeypair := fun i => Ok (keypairOf i);
     solana_getConnection := Ok connection;
     solana_getUsdcBalance := fun _ a => Ok (balance a);
     REQUIRED_USDC := required;
     pollHandler := Poll.handler (chain balance);
     clock := fun n => 1767225600000 + Z.of_nat n;
     fs_readFileSync := fun _ => Ok [];
     pinata_pinFileToIPFS := fun _ _ _ _ =>
       Ok {| IpfsHash := Some "bafkreidemo"; stringified := "{}" |} |}.

Definition noBalance : string -> Q := fun _ => 0%Q.

(** Wallet 2 holds 7 USDC, wallet 3 holds 4.999999, the others nothing. *)
Definition someBalance : string -> Q := fun a =>
  if decide (a = "wallet-2") then 7%Q
  else if decide (a = "wallet-3") then (4999999 # 1000000)%Q
  else 0%Q.

Definition session (i : Z) (st : Status) (required : Q)
    (mint : option string) : Session :=
  {| sessionId := TestMint.sessionIdOf i 1767225600000;
     sessionIndex := i;
     paymentAddress := publicKey (keypairOf i);
     outputType := "photo";
     metadata := {| mode := "ember"; speed := 1; fileUri := "ipfs://x";
                    answers := [] |};
     status := st;
     createdAt := 1767225600000;
     expiresAt := 1767225600000 + 1800000;
     requiredUsdc := required;
     buyerWallet := "buyer";
     mintAddress := mint;
     mintSignature := mint;
     sweepSignature := None |}.

Definition storeOf (counter : option Z) (sessions : list Session) : Store :=
  {| fault := None;
     counters := match counter with
                 | Some n => {[ counterKey := n ]}
                 | None => ∅
                 end;
     records := list_to_map
       (map (fun s => ("session:" +:+ sessionId s, (s, 1800))) sessions) |}.

Definition worldOf (st : Store) : World :=
  {| kv := st; ticks := 0; trace := [] |}.

Definition env : Recover.Env :=
  {| Recover.RECOVER_SECRET := Some "correct horse" |}.

Definition recoverReq (sessionId secret : QVal) : Recover.Request :=
  {| Recover.method := "GET";
     Recover.q_sessionId := sessionId;
     Recover.q_secret := secret |}.

Definition uploadEnv : Upload.Env :=
  {| Upload.PINATA_JWT := Some " jwt-token " |}.

Definition uploadFile (mime : option string) : Upload.File :=
  {| Upload.filepath := "/tmp/upload_1"; Upload.mimetype := mime |}.

Definition uploadForm (mime : option string) (outputType : QVal)
  : Upload.Form :=
  {| Upload.files_file := Upload.FilesArr [uploadFile mime];
     Upload.fields_outputType := outputType |}.

Definition pinned : PinData :=
  {| IpfsHash := Some "bafkreidemo"; stringified := "{}" |}.

Definition uploadReq (mime : option string) (outputType : QVal)
  : Upload.Request :=
  {| Upload.method := "POST";
     Upload.parsed := Ok (uploadForm mime outputType) |}.

End Demo.

(** ** api/master-address.js *)

(** [x >= y] on numbers, as [y <= x]. *)
Definition Qleb (x y : Q) : bool :=
  (Qnum x * Zpos (Qden y) <=? Qnum y * Zpos (Qden x))%Z.

Module MasterAddress.

Record Request : Type := { method : string }.

(** What the handler needs beyond [Services]: [connection.getBalance]
    (in lamports) and the rendering [Number.prototype.toFixed(6)]. *)
Record Rpc : Type := {
  connection_getBalance : Connection -> string -> Res Z;
  toFixed6 : Q -> string;
}.

(** [LAMPORTS_PER_SOL] of [@solana/web3.js]. *)
Definition LAMPORTS_PER_SOL : Z := 1000000000.

(** The threshold [0.05] of the handler. *)
Definition minimumSol : Q := 5 # 100.

Definition recommendation (solBalance : Q) (address : string) : string :=
  if Qltb solBalance minimumSol
  then "Send at least 0.1 SOL to " +:+ address +:+ " to fund minting operations"
  else "Balance looks good".

Section Handler.
Variable svc : Services.
Variable rpc : Rpc.

Definition masterAddress : M HttpResponse :=
  masterKeypair ← getMasterKeypair svc;
  let address := publicKey masterKeypair in
  connection ← getConnection svc;
  _ ← emit (EvBalance address);
  balance ← lift (connection_getBalance rpc connection address);
  let solBalance := (inject_Z balance / inject_Z LAMPORTS_PER_SOL)%Q in
  mret (respond 200
          (JObj [("masterAddress", JStr address);
                 ("solBalance", JStr (toFixed6 rpc solBalance));
                 ("solBalanceRaw", JNum (inject_Z balance));
                 ("funded", JBool (Qleb minimumSol solBalance));
                 ("recommendation", JStr (recommendation solBalance address))])).

Definition handler (req : Request) : World -> World * HttpResponse :=
  if decide (method req = "OPTIONS") then fun w => (w, respond_end 200)
  else if negb (bool_decide (method req = "GET")) then
    fun w => (w, respond 405 (JObj [("error", JStr "Method not allowed")]))
  else try_catch masterAddress.
End Handler.

End MasterAddress.

(** ** A log-and-exception monad for the code that uses no store *)

Definition Logged (E A : Type) : Type := list E -> list E * Res A.

Global Instance Logged_ret {E} : MRet (Logged E) := fun A a l => (l, Ok a).

Global Instance Logged_bind {E} : MBind (Logged E) := fun A B f m l =>
  match m l with
  | (l', Ok a) => f a l'
  | (l', Threw msg) => (l', Threw msg)
  end.

(** One call to the outside: it is logged, then answers or throws. *)
Definition call {E A : Type} (e : E) (r : Res A) : Logged E A :=
  fun l => ((l ++ [e])%list, r).

Definition raise {E A : Type} (msg : string) : Logged E A :=
  fun l => (l, Threw msg).

(** ** The Lossy collection: what both bootstrap paths share *)

Module Collection.

Definition COLLECTION_NAME : string := "Lossy".
Definition COLLECTION_SYMBOL : string := "LOSSY".
Definition COLLECTION_DESC : string :=
  "Lossy. An extension of Day After Day by lampwrecked. The signal persists in spite of decay.".
Definition CREATOR_ADDRESS : string :=
  "FrstHD18pJsFRatk2hnfv4EztP1p87mJ1SL6QyXCcQju".

Definition gatewayUri (hash : string) : string :=
  "https://gateway.pinata.cloud/ipfs/" +:+ hash.

Definition explorerUrl (mint : string) : string :=
  "https://explorer.solana.com/address/" +:+ mint.

(** What happens outside, in order. *)
Inductive Step : Type :=
| FetchImage (url : string)
| ReadImage (path : string)
| GetBalance (address : string)
| Pin (filename contentType : string) (content : list Byte.byte)
| DeriveMaster
| CreateNft (uri : string).

(** [if (!data.IpfsHash) throw new Error(prefix + JSON.stringify(data))],
    then the gateway URL of the hash. *)
Definition pinnedUri {E : Type} (failure : string) (data : PinData)
  : Logged E string :=
  match IpfsHash data with
  | Some (String c rest) => mret (gatewayUri (String c rest))
  | _ => raise (failure +:+ stringified data)
  end.

End Collection.

(** ** api/create-collection.js *)

Module CreateCollection.
Import Collection.

Record Request : Type := {
  method : string;
  q_secret : QVal;
}.

Record Env : Type := {
  PINATA_JWT : option string;
  SOLANA_RPC_URL : option string;
}.

(** The argument of [createNft]; [sellerFeeBasisPoints] holds the two
    arguments of [percentAmount]. *)
Record NftInput : Type := {
  name : string;
  symbol : string;
  uri : string;
  sellerFeeBasisPoints : Z * Z;
  isCollection : bool;
  creatorAddress : string;
  creatorVerified : bool;
  creatorShare : Z;
  isMutable : bool;
}.

Record Services : Type := {
  (* fetch(url): [response.ok] and the body *)
  fetchImage : string -> Res (bool * list Byte.byte);
  (* pinFileToIPFS with the JWT, a file name, a content type, a blob *)
  pinFile : string -> string -> string -> list Byte.byte -> Res PinData;
  (* JSON.stringify(doc, null, 2), as the bytes of the blob *)
  JSON_stringify : Json -> list Byte.byte;
  wallet_masterKeypair : Res Keypair;
  (* umi on the RPC URL, a fresh mint signer, createNft(...).sendAndConfirm,
     bs58 of the signature: the mint address and the signature *)
  createNft : option string -> Keypair -> NftInput -> Res (string * string);
}.

Definition imageUrl : string :=
  "https://raw.githubusercontent.com/lampwrecked/Lossy/main/lossy-collection.jpg".

Definition collectionMetadata (imageUri : string) : Json :=
  JObj [("name", JStr COLLECTION_NAME);
        ("symbol", JStr COLLECTION_SYMBOL);
        ("description", JStr COLLECTION_DESC);
        ("image", JStr imageUri);
        ("seller_fee_basis_points", JNum 1500);
        ("properties",
         JObj [("files", JArr [JObj [("uri", JStr imageUri);
                                     ("type", JStr "image/jpeg")]]);
               ("category", JStr "image");
               ("creators", JArr [JObj [("address", JStr CREATOR_ADDRESS);
                                        ("share", JNum 100)]])])].

Definition nftInput (metadataUri : string) : NftInput :=
  {| name := COLLECTION_NAME;
     symbol := COLLECTION_SYMBOL;
     uri := metadataUri;
     sellerFeeBasisPoints := (15, 2);
     isCollection := true;
     creatorAddress := CREATOR_ADDRESS;
     creatorVerified := false;
     creatorShare := 100;
     isMutable := true |}.

Definition created (mintAddr metadataUri imageUri sigStr : string) : Json :=
  JObj [("success", JBool true);
        ("collectionMint", JStr mintAddr);
        ("metadataUri", JStr metadataUri);
        ("imageUri", JStr imageUri);
        ("signature", JStr sigStr);
        ("explorerUrl", JStr (explorerUrl mintAddr));
        ("nextSteps",
         JArr [JStr ("1. Add to Vercel env vars: COLLECTION_MINT = " +:+ mintAddr);
               JStr "2. Redeploy Vercel";
               JStr "3. DELETE api/create-collection.js from GitHub immediately"])].

Section Handler.
Variable svc : Services.

Definition createCollection (env : Env) : Logged Step HttpResponse :=
  let jwt := Upload.trim (default "" (PINATA_JWT env)) in
  if decide (jwt = "") then raise "PINATA_JWT not configured"
  else
    imageRes ← call (FetchImage imageUrl) (fetchImage svc imageUrl);
    if negb (fst imageRes)
    then raise "Could not fetch lossy-collection.jpg from GitHub"
    else
      imgPinData ← call (Pin "lossy-collection.jpg" "image/jpeg" (snd imageRes))
                     (pinFile svc jwt "lossy-collection.jpg" "image/jpeg"
                        (snd imageRes));
      imageUri ← pinnedUri "Image upload failed: " imgPinData;
      let metaBlob := JSON_stringify svc (collectionMetadata imageUri) in
      metaPinData ← call (Pin "lossy-collection-metadata.json"
                            "application/json" metaBlob)
                      (pinFile svc jwt "lossy-collection-metadata.json"
                         "application/json" metaBlob);
      metadataUri ← pinnedUri "Metadata upload failed: " metaPinData;
      masterKeypair ← call DeriveMaster (wallet_masterKeypair svc);
      nft ← call (CreateNft metadataUri)
              (createNft svc (SOLANA_RPC_URL env) masterKeypair
                 (nftInput metadataUri));
      mret (respond 200 (created (fst nft) metadataUri imageUri (snd nft))).

Definition handler (env : Env) (req : Request)
  : list Step -> list Step * HttpResponse :=
  if decide (method req = "OPTIONS") then fun l => (l, respond_end 200)
  else if negb (strict_eq_lit (q_secret req) "lossy2026") then
    fun l => (l, respond 401 (JObj [("error", JStr "Unauthorized")]))
  else fun l =>
    match createCollection env l with
    | (l', Ok r) => (l', r)
    | (l', Threw msg) => (l', respond 500 (JObj [("error", JStr msg)]))
    end.
End Handler.

End CreateCollection.

(** ** scripts/create-collection.js *)

Module Script.
Import Collection.

Record Env : Type := {
  SOLANA_RPC_URL : option string;
  PINATA_JWT : option string;
  MASTER_WALLET_SEED : option string;
}.

Record Lib : Type := {
  bs58_decode : string -> Res (list Byte.byte);
  Keypair_fromSecretKey : list Byte.byte -> Res Keypair;
  (* bip39.mnemonicToSeedSync(...).toString('hex') *)
  mnemonicToSeedHex : string -> Res string;
  derivePath : string -> string -> Res (list Byte.byte);
  Keypair_fromSeed : list Byte.byte -> Res Keypair;
  (* path.join *)
  path_join : list string -> string;
  fs_readFile : string -> Res (list Byte.byte);
  connection_getBalance : string -> string -> Res Z;
  (* pinFileToIPFS with the JWT, a file name, a content type, the bytes *)
  pinFile : string -> string -> string -> list Byte.byte -> Res PinData;
  JSON_stringify : Json -> list Byte.byte;
  (* metaplex.nfts().create(...): the address of the collection NFT *)
  nfts_create : string -> Keypair -> Json -> Res string;
}.

Definition SELLER_FEE_BPS : Z := 1500.

(** [!v] for an environment variable. *)
Definition unset (v : option string) : bool :=
  match v with
  | Some (String _ _) => false
  | _ => true
  end.

(** [try { ... } catch {}]: a throw inside falls through. *)
Definition attempt {A : Type} (r : Res (option A)) : option A :=
  match r with
  | Ok o => o
  | Threw _ => None
  end.

Section Main.
Variable lib : Lib.

(** [IMAGE_PATH], for the directory [__dirname] the script lies in. *)
Definition IMAGE_PATH (dirname : string) : string :=
  path_join lib [dirname; ".."; "lossy-collection.jpg"].

Definition mnemonicKeypair (seed : string) : Res Keypair :=
  match mnemonicToSeedHex lib seed with
  | Threw msg => Threw msg
  | Ok hex =>
      match derivePath lib "m/44'/501'/0'/0'" hex with
      | Threw msg => Threw msg
      | Ok key => Keypair_fromSeed lib key
      end
  end.

Definition getMasterKeypair (seed : string) : Res Keypair :=
  match attempt
          (match bs58_decode lib seed with
           | Threw msg => Threw msg
           | Ok decoded =>
               if decide (length decoded = 64%nat)
               then match Keypair_fromSecretKey lib decoded with
                    | Ok kp => Ok (Some kp)
                    | Threw msg => Threw msg
                    end
               else Ok None
           end) with
  | Some kp => Ok kp
  | None => mnemonicKeypair seed
  end.

Definition uploadImageToPinata (jwt imagePath : string) : Logged Step string :=
  imageBytes ← call (ReadImage imagePath) (fs_readFile lib imagePath);
  data ← call (Pin "lossy-collection.jpg" "image/jpeg" imageBytes)
           (pinFile lib jwt "lossy-collection.jpg" "image/jpeg" imageBytes);
  pinnedUri "Image upload failed: " data.

Definition metadata (imageUri : string) : Json :=
  JObj [("name", JStr COLLECTION_NAME);
        ("symbol", JStr COLLECTION_SYMBOL);
        ("description", JStr COLLECTION_DESC);
        ("image", JStr imageUri);
        ("seller_fee_basis_points", JNum (inject_Z SELLER_FEE_BPS));
        ("properties",
         JObj [("files", JArr [JObj [("uri", JStr imageUri);
                                     ("type", JStr "image/jpeg")]]);
               ("category", JStr "image");
               ("creators", JArr [JObj [("address", JStr CREATOR_ADDRESS);
                                        ("share", JNum 100)]])])].

Definition uploadMetadataToPinata (jwt imageUri : string) : Logged Step string :=
  let blob := JSON_stringify lib (metadata imageUri) in
  data ← call (Pin "lossy-collection-metadata.json" "application/json" blob)
           (pinFile lib jwt "lossy-collection-metadata.json"
              "application/json" blob);
  pinnedUri "Metadata upload failed: " data.

Definition createInput (metadataUri : string) : Json :=
  JObj [("name", JStr COLLECTION_NAME);
        ("symbol", JStr COLLECTION_SYMBOL);
        ("uri", JStr metadataUri);
        ("sellerFeeBasisPoints", JNum (inject_Z SELLER_FEE_BPS));
        ("isCollection", JBool true);
        ("creators", JArr [JObj [("address", JStr CREATOR_ADDRESS);
                                 ("share", JNum 100)]])].

(** How the process ends: [main] ran through, with the collection's
    address, or [process.exit(code)]. *)
Inductive Outcome : Type :=
| Done (collectionMint : string)
| Exit (code : Z).

(** [main], up to the balance check: the keypair and its balance. *)
Definition funding (rpc seed : string) : Logged Step (Keypair * Z) :=
  keypair ← call DeriveMaster (getMasterKeypair seed);
  balance ← call (GetBalance (publicKey keypair))
              (connection_getBalance lib rpc (publicKey keypair));
  mret (keypair, balance).

(** [main], after the balance check. *)
Definition mintCollection (rpc jwt dirname : string) (keypair : Keypair)
  : Logged Step string :=
  imageUri ← uploadImageToPinata jwt (IMAGE_PATH dirname);
  metadataUri ← uploadMetadataToPinata jwt imageUri;
  call (CreateNft metadataUri)
    (nfts_create lib rpc keypair (createInput metadataUri)).

(** The script: the check of the environment, then
    [main().catch(err => process.exit(1))]. *)
Definition run (env : Env) (dirname : string) : list Step -> list Step * Outcome :=
  fun l =>
    if unset (SOLANA_RPC_URL env) || unset (PINATA_JWT env)
       || unset (MASTER_WALLET_SEED env)
    then (l, Exit 1)
    else
      let rpc := default "" (SOLANA_RPC_URL env) in
      let jwt := default "" (PINATA_JWT env) in
      let seed := default "" (MASTER_WALLET_SEED env) in
      match funding rpc seed l with
      | (l1, Threw _) => (l1, Exit 1)
      | (l1, Ok (keypair, balance)) =>
          if balance <? 15000000 then (l1, Exit 1)
          else
            match mintCollection rpc jwt dirname keypair l1 with
            | (l2, Ok collectionMint) => (l2, Done collectionMint)
            | (l2, Threw _) => (l2, Exit 1)
            end
      end.
End Main.

End Script.

(** ** Strings *)

(** The characters of a string. *)
Definition chars (s : string) : list ascii := list_ascii_of_string s.


(** The character [c] does not occur in [s]. *)
Definition lacks (c : ascii) (s : string) : Prop := c ∉ chars s.

(** ** More concrete services and requests *)

Module Samples.

Definition rpc (lamports : Z) : MasterAddress.Rpc :=
  {| MasterAddress.connection_getBalance := fun _ _ => Ok lamports;
     MasterAddress.toFixed6 := fun _ => "0.000000" |}.

Definition pinOf (hash : string) : PinData :=
  {| IpfsHash := Some hash; stringified := "{}" |}.

(** A pinning service that answers by content type. *)
Definition pinByType (jwt filename contentType : string)
    (content : list Byte.byte) : Res PinData :=
  if decide (contentType = "image/jpeg") then Ok (pinOf "bafyimage")
  else Ok (pinOf "bafymeta").

Definition collection : CreateCollection.Services :=
  {| CreateCollection.fetchImage := fun _ => Ok (true, []);
     CreateCollection.pinFile := pinByType;
     CreateCollection.JSON_stringify := fun _ => [];
     CreateCollection.wallet_masterKeypair := Ok {| publicKey := "master" |};
     CreateCollection.createNft := fun _ _ _ => Ok ("lossymint", "sig") |}.

Definition collectionEnv : CreateCollection.Env :=
  {| CreateCollection.PINATA_JWT := Some "jwt-token";
     CreateCollection.SOLANA_RPC_URL := Some "https://rpc.example/solana" |}.

Definition collectionReq (secret : QVal) : CreateCollection.Request :=
  {| CreateCollection.method := "GET"; CreateCollection.q_secret := secret |}.

Definition lib (lamports : Z) : Script.Lib :=
  {| Script.bs58_decode := fun _ => Threw "Non-base58 character";
     Script.Keypair_fromSecretKey := fun _ => Threw "bad secret key size";
     Script.mnemonicToSeedHex := fun _ => Ok "5eed";
     Script.derivePath := fun _ _ => Ok [];
     Script.Keypair_fromSeed := fun _ => Ok {| publicKey := "master" |};
     Script.path_join := fun _ => "/repo/lossy-collection.jpg";
     Script.fs_readFile := fun _ => Ok [];
     Script.connection_getBalance := fun _ _ => Ok lamports;
     Script.pinFile := pinByType;
     Script.JSON_stringify := fun _ => [];
     Script.nfts_create := fun _ _ _ => Ok "lossymint" |}.

Definition scriptEnv : Script.Env :=
  {| Script.SOLANA_RPC_URL := Some "https://rpc.example/solana";
     Script.PINATA_JWT := Some "jwt-token";
     Script.MASTER_WALLET_SEED := Some "abandon ability able" |}.

(** Services whose balance query fails for wallet 2. *)
Definition flaky : Services :=
  {| wallet_getMasterKeypair := Threw "MASTER_WALLET_SEED not configured";
     wallet_getSessionKeypair := fun i => Ok (Demo.keypairOf i);
     solana_getConnection := Ok Demo.connection;
     solana_getUsdcBalance := fun _ a =>
       if decide (a = "wallet-2") then Threw "429 Too Many Requests"
       else Ok 1%Q;
     REQUIRED_USDC := 5;
     pollHandler := Poll.handler (Demo.chain Demo.noBalance);
     clock := fun n => 1767225600000 + Z.of_nat n;
     fs_readFileSync := fun _ => Ok [];
     pinata_pinFileToIPFS := fun _ _ _ _ =>
       Ok {| IpfsHash := None; stringified := "rate limited" |} |}.

End Samples.

(** * Properties *)

(** ** Numbers *)

Lemma Qltb_lt (x y : Q) : Qltb x y = true <-> (x < y)%Q.
Proof. unfold Qltb, Qlt. apply Z.ltb_lt. Qed.

Lemma Qltb_ge (x y : Q) : Qltb x y = false <-> (y <= x)%Q.
Proof. unfold Qltb, Qle. rewrite Z.ltb_ge. reflexivity. Qed.

(** ** Running the calls *)

Lemma logged_nil w : logged w [] = w.
Proof. destruct w. unfold logged. cbn. by rewrite app_nil_r. Qed.

Lemma logged_logged w a b : logged (logged w a) b = logged w (a ++ b).
Proof. unfold logged. cbn. by rewrite app_assoc. Qed.

Lemma emitted_logged w evs : emitted w (logged w evs) evs.
Proof. reflexivity. Qed.

Lemma bind_run {A B} (m : M A) (f : A -> M B) w w' a :
  m w = (w', Ok a) -> (x ← m; f x) w = f a w'.
Proof. intros H. unfold mbind, M_bind. by rewrite H. Qed.

Lemma bind_throw {A B} (m : M A) (f : A -> M B) w w' msg :
  m w = (w', Threw msg) -> (x ← m; f x) w = (w', Threw msg).
Proof. intros H. unfold mbind, M_bind. by rewrite H. Qed.

Lemma storeCall_run {A} e (f : Store -> Store * A) w :
  storeCall e f w =
    match fault (kv w) with
    | Some msg => (logged w [e], Threw msg)
    | None =>
        ({| kv := fst (f (kv w)); ticks := ticks w;
            trace := (trace w ++ [e])%list |}, Ok (snd (f (kv w))))
    end.
Proof.
  unfold storeCall, mbind, M_bind, emit, get_store, put_store, throw, lift.
  cbn. destruct (fault (kv w)); [reflexivity|].
  by destruct (f (kv w)).
Qed.

Lemma redis_get_run key w :
  fault (kv w) = None ->
  redis_get key w = (logged w [EvRedisGet key], Ok (counters (kv w) !! key)).
Proof. intros Hf. unfold redis_get. rewrite storeCall_run, Hf. reflexivity. Qed.

Lemma redis_getJson_run key w :
  fault (kv w) = None ->
  redis_getJson key w =
    (logged w [EvRedisGetJson key], Ok (fst <$> records (kv w) !! key)).
Proof. intros Hf. unfold redis_getJson. rewrite storeCall_run, Hf. reflexivity. Qed.

Lemma redis_fault {A} e (f : Store -> Store * A) w msg :
  fault (kv w) = Some msg -> storeCall e f w = (logged w [e], Threw msg).
Proof. intros Hf. rewrite storeCall_run, Hf. reflexivity. Qed.

Lemma getConnection_run svc w :
  getConnection svc w = (logged w [EvGetConnection], solana_getConnection svc).
Proof. reflexivity. Qed.

Lemma getMasterKeypair_run svc w :
  getMasterKeypair svc w = (logged w [EvDeriveMaster], wallet_getMasterKeypair svc).
Proof. reflexivity. Qed.

Lemma getSessionKeypair_run svc i w :
  getSessionKeypair svc i w = (logged w [EvDerive i], wallet_getSessionKeypair svc i).
Proof. reflexivity. Qed.

Lemma getUsdcBalance_run svc c a w :
  getUsdcBalance svc c a w = (logged w [EvBalance a], solana_getUsdcBalance svc c a).
Proof. reflexivity. Qed.

(** ** api/recover.js: the guards *)

Lemma authorized_spec env v :
  Recover.authorized env v = true <->
  (v = QUndef /\ Recover.RECOVER_SECRET env = None)
  \/ (exists s, v = QStr s
        /\ (Recover.RECOVER_SECRET env = Some s \/ s = "dayafterday2026")).
Proof.
  unfold Recover.authorized, strict_eq_env, strict_eq_lit.
  destruct v as [|s|a l], (Recover.RECOVER_SECRET env) as [e|]; cbn;
    repeat case_decide; subst; split; intros Hx;
    repeat match goal with
      | H : _ \/ _ |- _ => destruct H
      | H : _ /\ _ |- _ => destruct H
      | H : ex _ |- _ => destruct H
      end; simplify_eq; try done; eauto 6.
Qed.

(** What [Recover.handler] does once the method and the secret are
    accepted. *)
Lemma recover_accepted svc env req w :
  Recover.method req = "GET" ->
  Recover.authorized env (Recover.q_secret req) = true ->
  Recover.handler svc env req w =
    try_catch (if falsy (Recover.q_sessionId req) then Recover.scan svc
               else Recover.recoverSession svc (Recover.q_sessionId req)) w.
Proof.
  intros Hm Ha. unfold Recover.handler. rewrite Hm, Ha. reflexivity.
Qed.

(** C1 (as amended): a GET recovery request whose [secret] is neither
    the configured [RECOVER_SECRET] nor the built-in fallback
    ['dayafterday2026'] is answered 401 Unauthorized whatever its
    [sessionId] and whatever the store holds; nothing is read, written
    or called. *)
Theorem recover_rejects_unknown_secret svc env req w :
  Recover.method req = "GET" ->
  strict_eq_env (Recover.q_secret req) (Recover.RECOVER_SECRET env) = false ->
  Recover.q_secret req <> QStr "dayafterday2026" ->
  Recover.handler svc env req w = (w, unauthorized).
Proof.
  intros Hm Henv Hlit. unfold Recover.handler, Recover.authorized.
  rewrite Hm, Henv. cbn.
  replace (strict_eq_lit (Recover.q_secret req) "dayafterday2026") with false.
  - reflexivity.
  - unfold strict_eq_lit. destruct (Recover.q_secret req); try done.
    case_decide; [subst; done | done].
Qed.

(** C1 (as stated) fails: the fallback secret is accepted although it is
    not the configured one, also with the id of an existing session; and
    a request that is not a GET is answered before the secret is looked
    at. *)
Lemma recover_fallback_secret_accepted :
  let svc := Demo.services 5 Demo.noBalance in
  let s := Demo.session 1 minted 5 (Some "mintA") in
  let w := Demo.worldOf (Demo.storeOf (Some 1) [s]) in
  let byFallback := Demo.recoverReq (QStr (sessionId s)) (QStr "dayafterday2026") in
  let byPost :=
    {| Recover.method := "POST"; Recover.q_sessionId := QUndef;
       Recover.q_secret := QStr "wrong" |} in
  (strict_eq_env (Recover.q_secret byFallback)
     (Recover.RECOVER_SECRET Demo.env) = false
   /\ snd (Recover.handler svc Demo.env byFallback w) = alreadyMinted s
   /\ code (snd (Recover.handler svc Demo.env byFallback w)) <> 401)
  /\ (strict_eq_env (Recover.q_secret byPost)
        (Recover.RECOVER_SECRET Demo.env) = false
      /\ code (snd (Recover.handler svc Demo.env byPost w)) = 405).
Proof. vm_compute. repeat split; discriminate. Qed.

(** ** api/recover.js: one session *)

Lemma recoverSession_found svc sid w s ttl :
  fault (kv w) = None ->
  records (kv w) !! Recover.sessionKey sid = Some (s, ttl) ->
  Recover.recoverSession svc sid w =
    let w1 := logged w [EvRedisGetJson (Recover.sessionKey sid)] in
    if decide (status s = minted) then (w1, Ok (alreadyMinted s))
    else
      (connection ← getConnection svc;
       sessionKeypair ← getSessionKeypair svc (sessionIndex s);
       balance ← getUsdcBalance svc connection (publicKey sessionKeypair);
       if Qltb balance (REQUIRED_USDC svc) then
         mret (insufficient balance (REQUIRED_USDC svc) (publicKey sessionKeypair))
       else
         out ← callPoll svc {| p_method := "GET"; p_sessionId := sid;
                               p_test := None |};
         mret (respond 200 (JObj [("triggered", JBool true);
                                  ("result", default JNull (jsonCall out))]))) w1.
Proof.
  intros Hf Hs. unfold Recover.recoverSession.
  erewrite bind_run by (by apply redis_getJson_run).
  rewrite Hs. cbn. by case_decide.
Qed.

Lemma recoverSession_fault svc sid w msg :
  fault (kv w) = Some msg ->
  Recover.recoverSession svc sid w =
    (logged w [EvRedisGetJson (Recover.sessionKey sid)], Threw msg).
Proof.
  intros Hf. unfold Recover.recoverSession.
  erewrite bind_throw; [reflexivity|]. by apply redis_fault.
Qed.

(** The balance check of a session that is not minted yet. *)
Lemma recoverSession_probe svc sid w s ttl c kp b :
  fault (kv w) = None ->
  records (kv w) !! Recover.sessionKey sid = Some (s, ttl) ->
  status s <> minted ->
  solana_getConnection svc = Ok c ->
  wallet_getSessionKeypair svc (sessionIndex s) = Ok kp ->
  solana_getUsdcBalance svc c (publicKey kp) = Ok b ->
  Recover.recoverSession svc sid w =
    let w1 := logged w [EvRedisGetJson (Recover.sessionKey sid);
                        EvGetConnection; EvDerive (sessionIndex s);
                        EvBalance (publicKey kp)] in
    if Qltb b (REQUIRED_USDC svc) then
      (w1, Ok (insufficient b (REQUIRED_USDC svc) (publicKey kp)))
    else
      (out ← callPoll svc {| p_method := "GET"; p_sessionId := sid;
                             p_test := None |};
       mret (respond 200 (JObj [("triggered", JBool true);
                                ("result", default JNull (jsonCall out))]))) w1.
Proof.
  intros Hf Hs Hst Hc Hk Hb.
  rewrite (recoverSession_found svc sid w s ttl Hf Hs).
  cbv zeta. case_decide; [done|].
  erewrite bind_run by (by rewrite getConnection_run, Hc).
  erewrite bind_run by (by rewrite getSessionKeypair_run, Hk).
  erewrite bind_run by (by rewrite getUsdcBalance_run, Hb).
  rewrite !logged_logged. cbn [app].
  by destruct (Qltb b (REQUIRED_USDC svc)).
Qed.

(** C2: recovering a session that is already minted is idempotent.  On
    every request naming such a session the store is left as it was and
    nothing but reads is performed (no poll call, so no mint or sweep
    broadcast); an accepted request is answered with the session's
    existing [mintAddress], and so is the same request made again. *)
Theorem recover_minted_idempotent svc env req w s ttl w' r :
  falsy (Recover.q_sessionId req) = false ->
  records (kv w) !! Recover.sessionKey (Recover.q_sessionId req) = Some (s, ttl) ->
  status s = minted ->
  Recover.handler svc env req w = (w', r) ->
  kv w' = kv w
  /\ (exists evs, emitted w w' evs /\ forallb read_only evs = true)
  /\ (Recover.method req = "GET" ->
      Recover.authorized env (Recover.q_secret req) = true ->
      fault (kv w) = None ->
      r = alreadyMinted s
      /\ records (kv w') !! Recover.sessionKey (Recover.q_sessionId req)
         = Some (s, ttl)
      /\ snd (Recover.handler svc env req w') = alreadyMinted s).
Proof.
  intros Hsid Hs Hst Hrun.
  assert (Hnone : kv w = kv w /\ exists evs, emitted w w evs
                                   /\ forallb read_only evs = true).
  { split; [done|]. exists []. split; [|done].
    unfold emitted. by rewrite app_nil_r. }
  unfold Recover.handler in Hrun.
  case_decide as Hopt.
  { simplify_eq. destruct Hnone as [? ?]. split_and!; [done..|].
    intros Hm. congruence. }
  destruct (bool_decide (Recover.method req = "GET")) eqn:Hget; cbn in Hrun.
  2:{ simplify_eq. destruct Hnone as [? ?]. split_and!; [done..|].
      intros Hm. apply bool_decide_eq_false in Hget. done. }
  destruct (Recover.authorized env (Recover.q_secret req)) eqn:Hauth;
    cbn in Hrun.
  2:{ simplify_eq. destruct Hnone as [? ?]. split_and!; [done..|].
      intros _ Ha. done. }
  rewrite Hsid in Hrun. unfold try_catch in Hrun.
  destruct (fault (kv w)) as [msg|] eqn:Hf.
  - rewrite (recoverSession_fault svc _ w msg Hf) in Hrun. simplify_eq.
    split_and!; [done| |done].
    eexists. split; [apply emitted_logged|done].
  - rewrite (recoverSession_found svc _ w s ttl Hf Hs) in Hrun.
    cbv zeta in Hrun. case_decide; [|done]. simplify_eq.
    split_and!; [done| |].
    + eexists. split; [apply emitted_logged|done].
    + intros Hm _ _. split_and!; [done|done|].
      apply bool_decide_eq_true in Hget.
      rewrite recover_accepted by done. rewrite Hsid. unfold try_catch.
      rewrite (recoverSession_found svc _ _ s ttl) by done.
      cbv zeta. by case_decide.
Qed.

Lemma recover_minted_idempotent_witness :
  let svc := Demo.services 5 Demo.noBalance in
  let s := Demo.session 1 minted 5 (Some "mintA") in
  let w := Demo.worldOf (Demo.storeOf (Some 1) [s]) in
  let req := Demo.recoverReq (QStr (sessionId s)) (QStr "correct horse") in
  let out := Recover.handler svc Demo.env req w in
  kv (fst out) = kv w
  /\ (exists evs, emitted w (fst out) evs /\ forallb read_only evs = true)
  /\ (Recover.method req = "GET" ->
      Recover.authorized Demo.env (Recover.q_secret req) = true ->
      fault (kv w) = None ->
      snd out = alreadyMinted s
      /\ records (kv (fst out)) !! Recover.sessionKey (Recover.q_sessionId req)
         = Some (s, 1800)
      /\ snd (Recover.handler svc Demo.env req (fst out)) = alreadyMinted s).
Proof.
  intros svc s w req out.
  apply (recover_minted_idempotent svc Demo.env req w s 1800 (fst out) (snd out));
    [reflexivity | vm_compute; reflexivity | reflexivity
    | apply surjective_pairing].
Defined.

Lemma recover_rejects_unknown_secret_witness :
  let svc := Demo.services 5 Demo.noBalance in
  let s := Demo.session 1 pending 5 None in
  let w := Demo.worldOf (Demo.storeOf (Some 1) [s]) in
  Recover.handler svc Demo.env
    (Demo.recoverReq (QStr (sessionId s)) (QStr "guess")) w = (w, unauthorized).
Proof.
  intros svc s w.
  apply recover_rejects_unknown_secret; [reflexivity | reflexivity | discriminate].
Defined.

(** What an accepted request for a session that is not minted gets:
    decided by the balance against the constant [REQUIRED_USDC]. *)
Lemma recover_unminted svc env req w s ttl c kp b :
  Recover.method req = "GET" ->
  Recover.authorized env (Recover.q_secret req) = true ->
  falsy (Recover.q_sessionId req) = false ->
  fault (kv w) = None ->
  records (kv w) !! Recover.sessionKey (Recover.q_sessionId req) = Some (s, ttl) ->
  status s <> minted ->
  solana_getConnection svc = Ok c ->
  wallet_getSessionKeypair svc (sessionIndex s) = Ok kp ->
  solana_getUsdcBalance svc c (publicKey kp) = Ok b ->
  Recover.handler svc env req w =
    let w1 := logged w [EvRedisGetJson (Recover.sessionKey (Recover.q_sessionId req));
                        EvGetConnection; EvDerive (sessionIndex s);
                        EvBalance (publicKey kp)] in
    if Qltb b (REQUIRED_USDC svc) then
      (w1, insufficient b (REQUIRED_USDC svc) (publicKey kp))
    else
      let w2 := logged w1 [EvPoll (recoverPoll (Recover.q_sessionId req))] in
      (fst (pollHandler svc (recoverPoll (Recover.q_sessionId req)) w2),
       triggered (snd (pollHandler svc (recoverPoll (Recover.q_sessionId req)) w2))).
Proof.
  intros Hm Ha Hsid Hf Hs Hst Hc Hk Hb.
  rewrite recover_accepted by done. rewrite Hsid. unfold try_catch.
  rewrite (recoverSession_probe svc _ w s ttl c kp b) by done.
  cbv zeta. destruct (Qltb b (REQUIRED_USDC svc)); [done|].
  unfold callPoll, mbind, M_bind, emit, recoverPoll, logged. cbn.
  match goal with |- context [pollHandler svc ?q ?w] =>
    destruct (pollHandler svc q w) as [w2 [out|msg]] end; reflexivity.
Qed.

(** C3: a pending session whose wallet holds less than the requirement
    (balance 0 under a positive requirement, in particular) is answered
    "insufficient balance"; the run only reads (no store write), the
    store is unchanged, and reading the record again yields the same
    object. *)
Theorem recover_insufficient_no_write svc env req w s ttl c kp b :
  Recover.method req = "GET" ->
  Recover.authorized env (Recover.q_secret req) = true ->
  falsy (Recover.q_sessionId req) = false ->
  fault (kv w) = None ->
  records (kv w) !! Recover.sessionKey (Recover.q_sessionId req) = Some (s, ttl) ->
  status s = pending ->
  solana_getConnection svc = Ok c ->
  wallet_getSessionKeypair svc (sessionIndex s) = Ok kp ->
  solana_getUsdcBalance svc c (publicKey kp) = Ok b ->
  (b < REQUIRED_USDC svc)%Q ->
  let key := Recover.sessionKey (Recover.q_sessionId req) in
  let w' := fst (Recover.handler svc env req w) in
  let r := snd (Recover.handler svc env req w) in
  r = insufficient b (REQUIRED_USDC svc) (publicKey kp)
  /\ (exists j, body r = Some j
        /\ field "status" j = Some (JStr "insufficient balance"))
  /\ kv w' = kv w
  /\ (exists evs, emitted w w' evs /\ forallb read_only evs = true)
  /\ snd (redis_getJson key w') = snd (redis_getJson key w)
  /\ snd (redis_getJson key w') = Ok (Some s).
Proof.
  intros Hm Ha Hsid Hf Hs Hst Hc Hk Hb Hlt key w' r.
  assert (Hrun := recover_unminted svc env req w s ttl c kp b
                    Hm Ha Hsid Hf Hs ltac:(congruence) Hc Hk Hb).
  apply Qltb_lt in Hlt. rewrite Hlt in Hrun. cbv zeta in Hrun.
  subst w' r. rewrite Hrun. cbn [fst snd].
  split_and!; [done| |done| | |].
  - eexists. split; [reflexivity|reflexivity].
  - eexists. split; [apply emitted_logged|done].
  - subst key. by rewrite !redis_getJson_run.
  - subst key. rewrite redis_getJson_run by done. cbn. by rewrite Hs.
Qed.

Lemma recover_insufficient_no_write_witness :
  let svc := Demo.services 5 Demo.noBalance in
  let s := Demo.session 1 pending 5 None in
  let w := Demo.worldOf (Demo.storeOf (Some 1) [s]) in
  let req := Demo.recoverReq (QStr (sessionId s)) (QStr "correct horse") in
  let key := Recover.sessionKey (Recover.q_sessionId req) in
  let w' := fst (Recover.handler svc Demo.env req w) in
  let r := snd (Recover.handler svc Demo.env req w) in
  r = insufficient 0 5 "wallet-1"
  /\ (exists j, body r = Some j
        /\ field "status" j = Some (JStr "insufficient balance"))
  /\ kv w' = kv w
  /\ (exists evs, emitted w w' evs /\ forallb read_only evs = true)
  /\ snd (redis_getJson key w') = snd (redis_getJson key w)
  /\ snd (redis_getJson key w') = Ok (Some s).
Proof.
  intros svc s w req.
  apply (recover_insufficient_no_write svc Demo.env req w s 1800
           Demo.connection (Demo.keypairOf 1) 0%Q);
    [reflexivity | reflexivity | reflexivity | reflexivity
    | vm_compute; reflexivity | reflexivity | reflexivity | reflexivity
    | reflexivity | reflexivity].
Defined.

(** C4 (as amended): the insufficiency decision and the [required]
    field come from the constant [REQUIRED_USDC] the handler imports,
    whatever [requiredUsdc] the session stores: below the constant the
    answer is [{status: "insufficient balance", balance, required:
    REQUIRED_USDC, address}], at or above it the poll handler is
    triggered instead.  For a session whose snapshot still equals the
    constant this is the snapshot. *)
Theorem recover_required_is_constant svc env req w s ttl c kp b :
  Recover.method req = "GET" ->
  Recover.authorized env (Recover.q_secret req) = true ->
  falsy (Recover.q_sessionId req) = false ->
  fault (kv w) = None ->
  records (kv w) !! Recover.sessionKey (Recover.q_sessionId req) = Some (s, ttl) ->
  status s <> minted ->
  solana_getConnection svc = Ok c ->
  wallet_getSessionKeypair svc (sessionIndex s) = Ok kp ->
  solana_getUsdcBalance svc c (publicKey kp) = Ok b ->
  let sid := Recover.q_sessionId req in
  let r := snd (Recover.handler svc env req w) in
  let w2 := logged w [EvRedisGetJson (Recover.sessionKey sid); EvGetConnection;
                      EvDerive (sessionIndex s); EvBalance (publicKey kp);
                      EvPoll (recoverPoll sid)] in
  ((b < REQUIRED_USDC svc)%Q ->
     r = insufficient b (REQUIRED_USDC svc) (publicKey kp))
  /\ ((REQUIRED_USDC svc <= b)%Q ->
        r = triggered (snd (pollHandler svc (recoverPoll sid) w2))
        /\ forall j, body r = Some j -> field "status" j = None)
  /\ (requiredUsdc s = REQUIRED_USDC svc -> (b < requiredUsdc s)%Q ->
        r = insufficient b (requiredUsdc s) (publicKey kp)).
Proof.
  intros Hm Ha Hsid Hf Hs Hst Hc Hk Hb sid r w2.
  assert (Hrun := recover_unminted svc env req w s ttl c kp b
                    Hm Ha Hsid Hf Hs Hst Hc Hk Hb).
  cbv zeta in Hrun. rewrite logged_logged in Hrun. cbn [app] in Hrun.
  fold sid w2 in Hrun. subst r.
  assert (Hlow : (b < REQUIRED_USDC svc)%Q ->
            snd (Recover.handler svc env req w)
            = insufficient b (REQUIRED_USDC svc) (publicKey kp)).
  { intros Hlt%Qltb_lt. rewrite Hrun, Hlt. reflexivity. }
  split_and!.
  - exact Hlow.
  - intros Hge%Qltb_ge. rewrite Hrun, Hge. cbn [snd]. split; [done|].
    destruct (snd (pollHandler svc (recoverPoll sid) w2)) as [out|msg];
      cbn; intros j Hj; simplify_eq; reflexivity.
  - intros Heq Hlt. rewrite Heq in *. by apply Hlow.
Qed.

(** The underpayment scenario: with [REQUIRED_USDC = 5], a session
    created under it and a wallet holding 4.999999. *)
Lemma recover_required_is_constant_witness :
  let svc := Demo.services 5 Demo.someBalance in
  let s := Demo.session 3 pending 5 None in
  let w := Demo.worldOf (Demo.storeOf (Some 3) [s]) in
  let req := Demo.recoverReq (QStr (sessionId s)) (QStr "correct horse") in
  snd (Recover.handler svc Demo.env req w)
  = insufficient (4999999 # 1000000) 5 "wallet-3".
Proof.
  intros svc s w req.
  refine (proj1 (recover_required_is_constant svc Demo.env req w s 1800
                   Demo.connection (Demo.keypairOf 3) (4999999 # 1000000)
                   _ _ _ _ _ _ _ _ _) _);
    [reflexivity | reflexivity | reflexivity | reflexivity
    | vm_compute; reflexivity | discriminate | reflexivity | reflexivity
    | reflexivity | reflexivity].
Defined.

(** C4 (as stated) fails: the stored snapshot is not consulted.  Under
    [REQUIRED_USDC = 10], a session created with [requiredUsdc = 5] is
    told [required: 10], and a wallet holding 7 (above the snapshot) is
    still reported insufficient. *)
Lemma recover_ignores_snapshot :
  let svc := Demo.services 10 Demo.someBalance in
  let under := Demo.session 3 pending 5 None in
  let over := Demo.session 2 pending 5 None in
  let w := Demo.worldOf (Demo.storeOf (Some 3) [over; under]) in
  let ask s := snd (Recover.handler svc Demo.env
     (Demo.recoverReq (QStr (sessionId s)) (QStr "correct horse")) w) in
  (requiredUsdc under = 5%Q
   /\ ask under = insufficient (4999999 # 1000000) 10 "wallet-3"
   /\ ask under <> insufficient (4999999 # 1000000) 5 "wallet-3")
  /\ (Qltb 7 (requiredUsdc over) = false
      /\ ask over = insufficient 7 10 "wallet-2").
Proof. vm_compute. repeat split; discriminate. Qed.

(** ** api/recover.js: the scan *)

(** The loop stops by its own test: iterations beyond
    [total + 1 - i] are never used. *)
Lemma scanLoop_fuel svc total n : forall m i found w,
  (Z.to_nat (total + 1 - i) <= n)%nat -> (n <= m)%nat ->
  Recover.scanLoop svc n i total found w = Recover.scanLoop svc m i total found w.
Proof.
  induction n as [|n IH]; intros m i found w Hfuel Hm.
  - destruct m as [|m]; [done|]. cbn [Recover.scanLoop].
    destruct (i <=? total) eqn:Hle; [|done]. apply Z.leb_le in Hle. lia.
  - destruct m as [|m]; [lia|]. cbn [Recover.scanLoop].
    destruct (i <=? total) eqn:Hle; [|done]. apply Z.leb_le in Hle.
    unfold mbind, M_bind.
    destruct (getConnection svc w) as [w1 [c|?]]; [|done].
    destruct (getSessionKeypair svc i w1) as [w2 [kp|?]]; [|done].
    destruct (getUsdcBalance svc c (publicKey kp) w2) as [w3 [bal|?]]; [|done].
    apply IH; lia.
Qed.

Lemma reported_app address balance l1 l2 :
  reported address balance (l1 ++ l2)
  = (reported address balance l1 ++ reported address balance l2)%list.
Proof. unfold reported. by rewrite filter_app, map_app. Qed.

Lemma scanLoop_run svc total c address balance n : forall i found w,
  solana_getConnection svc = Ok c ->
  (forall j, i <= j <= total ->
     wallet_getSessionKeypair svc j = Ok {| publicKey := address j |}
     /\ solana_getUsdcBalance svc c (address j) = Ok (balance j)) ->
  n = Z.to_nat (total + 1 - i) ->
  Recover.scanLoop svc n i total found w =
    (logged w (flat_map (probe address) (seqZ i (total + 1 - i))),
     Ok (found ++ reported address balance (seqZ i (total + 1 - i)))%list).
Proof.
  induction n as [|n IH]; intros i found w Hc Hsvc Hn.
  - cbn [Recover.scanLoop]. rewrite seqZ_nil by lia. cbn.
    by rewrite logged_nil, app_nil_r.
  - cbn [Recover.scanLoop].
    assert (i <= total) as Hle by lia.
    rewrite (proj2 (Z.leb_le i total) Hle).
    destruct (Hsvc i ltac:(lia)) as [Hk Hb].
    erewrite bind_run by (by rewrite getConnection_run, Hc).
    erewrite bind_run by (by rewrite getSessionKeypair_run, Hk).
    cbn [publicKey].
    erewrite bind_run by (by rewrite getUsdcBalance_run, Hb).
    rewrite IH; [|done|intros j Hj; apply Hsvc; lia|lia].
    rewrite (seqZ_cons i (total + 1 - i)) by lia.
    replace (Z.pred (total + 1 - i)) with (total + 1 - (i + 1)) by lia.
    replace (Z.succ i) with (i + 1) by lia.
    rewrite !logged_logged. cbn [flat_map probe app].
    f_equal. f_equal.
    change (i :: seqZ (i + 1) (total + 1 - (i + 1)))
      with ([i] ++ seqZ (i + 1) (total + 1 - (i + 1)))%list.
    rewrite reported_app, app_assoc. f_equal.
    unfold reported. rewrite filter_cons, filter_nil.
    destruct (Qltb 0 (balance i)) eqn:Hpos.
    + rewrite decide_True by done. reflexivity.
    + rewrite decide_False by done. cbn [map]. by rewrite app_nil_r.
Qed.

Lemma scan_run svc w c address balance :
  fault (kv w) = None ->
  solana_getConnection svc = Ok c ->
  let total := Recover.parseCounter (counters (kv w) !! counterKey) in
  (forall j, Z.max 1 (total - 20) <= j <= total ->
     wallet_getSessionKeypair svc j = Ok {| publicKey := address j |}
     /\ solana_getUsdcBalance svc c (address j) = Ok (balance j)) ->
  Recover.scan svc w =
    (logged w (EvRedisGet counterKey :: flat_map (probe address) (scanWindow total)),
     Ok (scanned total (reported address balance (scanWindow total)))).
Proof.
  intros Hf Hc total Hsvc. unfold Recover.scan.
  erewrite bind_run by (by apply redis_get_run).
  fold total. cbv zeta.
  erewrite bind_run by (by eapply scanLoop_run).
  rewrite logged_logged. reflexivity.
Qed.

Lemma read_only_spec e :
  read_only e = true ->
  is_broadcast e = false /\ is_store_write e = false /\ forall q, e <> EvPoll q.
Proof. destruct e; cbn; intros H; try done. Qed.

Lemma probes_read_only address idxs :
  forallb read_only (flat_map (probe address) idxs) = true.
Proof. induction idxs as [|i idxs IH]; [done|]. cbn. exact IH. Qed.

Lemma seqZ_sorted lo len : StronglySorted Z.lt (seqZ lo len).
Proof.
  unfold seqZ. generalize 0%nat as start.
  induction (Z.to_nat len) as [|n IH]; intros start; cbn; constructor.
  - apply IH.
  - rewrite Forall_fmap. apply Forall_seq. intros i Hi. cbn. lia.
Qed.

Lemma elem_of_scanWindow total i :
  i ∈ scanWindow total <-> Z.max 1 (total - 20) <= i <= total.
Proof. unfold scanWindow. rewrite elem_of_seqZ. lia. Qed.

Lemma elem_of_reported address balance idxs e :
  e ∈ reported address balance idxs <->
  exists i, i ∈ idxs /\ (0 < balance i)%Q
            /\ e = Recover.walletEntry i (address i) (balance i).
Proof.
  unfold reported. rewrite list_elem_of_fmap. split.
  - intros (i & -> & Hi). apply list_elem_of_filter in Hi as [Hpos Hi].
    exists i. by rewrite <- Qltb_lt.
  - intros (i & Hi & Hpos & ->). exists i. split; [done|].
    apply list_elem_of_filter. by rewrite Qltb_lt.
Qed.

(** C5 (as amended): without a [sessionId] the handler reads the
    counter and probes (derive the wallet, query its balance) a window
    of the most recent session indices, in increasing order and each
    once: every index among the last 20 that exists ([max(1, total-19)]
    to [total]) is probed, and none below [max(1, total-20)] or above
    [total], so at most 21.  It answers [{scanned: total,
    walletsWithUsdc}] with exactly the probed entries whose balance is
    strictly positive, and only reads: the store is unchanged. *)
Theorem recover_scan_recent svc env req w c address balance :
  Recover.method req = "GET" ->
  Recover.authorized env (Recover.q_secret req) = true ->
  falsy (Recover.q_sessionId req) = true ->
  fault (kv w) = None ->
  solana_getConnection svc = Ok c ->
  let total := Recover.parseCounter (counters (kv w) !! counterKey) in
  (forall j, Z.max 1 (total - 20) <= j <= total ->
     wallet_getSessionKeypair svc j = Ok {| publicKey := address j |}
     /\ solana_getUsdcBalance svc c (address j) = Ok (balance j)) ->
  exists idxs found,
    Recover.handler svc env req w =
      (logged w (EvRedisGet counterKey :: flat_map (probe address) idxs),
       scanned total found)
    /\ (forall i, Z.max 1 (total - 19) <= i <= total -> i ∈ idxs)
    /\ (forall i, i ∈ idxs -> Z.max 1 (total - 20) <= i <= total)
    /\ StronglySorted Z.lt idxs
    /\ (length idxs <= 21)%nat
    /\ found = reported address balance idxs
    /\ (forall e, e ∈ found <->
          exists i, i ∈ idxs /\ (0 < balance i)%Q
                    /\ e = Recover.walletEntry i (address i) (balance i))
    /\ kv (fst (Recover.handler svc env req w)) = kv w
    /\ forallb read_only
         (EvRedisGet counterKey :: flat_map (probe address) idxs) = true.
Proof.
  intros Hm Ha Hsid Hf Hc total Hsvc.
  exists (scanWindow total), (reported address balance (scanWindow total)).
  assert (Hrun : Recover.handler svc env req w =
    (logged w (EvRedisGet counterKey :: flat_map (probe address) (scanWindow total)),
     scanned total (reported address balance (scanWindow total)))).
  { rewrite recover_accepted by done. rewrite Hsid. unfold try_catch.
    by rewrite (scan_run svc w c address balance Hf Hc Hsvc). }
  split_and!.
  - exact Hrun.
  - intros i Hi. apply elem_of_scanWindow. lia.
  - intros i Hi. by apply elem_of_scanWindow.
  - apply seqZ_sorted.
  - unfold scanWindow. rewrite length_seqZ. lia.
  - reflexivity.
  - apply elem_of_reported.
  - by rewrite Hrun.
  - cbn. apply probes_read_only.
Qed.

Lemma recover_scan_recent_witness :
  let svc := Demo.services 5 Demo.someBalance in
  let w := Demo.worldOf (Demo.storeOf (Some 3) []) in
  let req := Demo.recoverReq QUndef (QStr "correct horse") in
  let address := fun i : Z => publicKey (Demo.keypairOf i) in
  let balance := fun i : Z => Demo.someBalance (address i) in
  exists idxs found,
    Recover.handler svc Demo.env req w =
      (logged w (EvRedisGet counterKey :: flat_map (probe address) idxs),
       scanned 3 found)
    /\ (forall i, 1 <= i <= 3 -> i ∈ idxs)
    /\ found = reported address balance idxs
    /\ kv (fst (Recover.handler svc Demo.env req w)) = kv w.
Proof.
  intros svc w req address balance.
  destruct (recover_scan_recent svc Demo.env req w Demo.connection address balance)
    as (idxs & found & Hrun & Hall & _ & _ & _ & Hfound & _ & Hkv & _);
    [reflexivity | reflexivity | reflexivity | reflexivity | reflexivity
    | intros j _; split; reflexivity |].
  exists idxs, found. split_and!; [exact Hrun| |exact Hfound|exact Hkv].
  intros i Hi. apply Hall.
  change (Recover.parseCounter (counters (kv w) !! counterKey)) with 3. lia.
Defined.

(** C5 (as stated) fails: the window is not "exactly the last 20
    indices".  With the counter at 3 only the three existing indices are
    probed; with the counter at 25 the loop runs from 5 to 25, which is
    21 indices. *)
Lemma recover_scan_not_last20 :
  let svc := Demo.services 5 Demo.noBalance in
  let probed total :=
    derivedIndices (trace (fst (Recover.handler svc Demo.env
      (Demo.recoverReq QUndef (QStr "correct horse"))
      (Demo.worldOf (Demo.storeOf (Some total) []))))) in
  (probed 3 = [1; 2; 3] /\ probed 3 <> last20 3)
  /\ (probed 25 = seqZ 5 21 /\ length (probed 25) = 21%nat
      /\ probed 25 <> last20 25).
Proof. vm_compute. repeat split; discriminate. Qed.

Lemma derivedIndices_app a b :
  derivedIndices (a ++ b) = (derivedIndices a ++ derivedIndices b)%list.
Proof. apply omap_app. Qed.

Lemma queriedAddresses_app a b :
  queriedAddresses (a ++ b) = (queriedAddresses a ++ queriedAddresses b)%list.
Proof. apply omap_app. Qed.

(** C9: without a [sessionId], when the session counter is absent or
    holds 0, the handler only reads the counter: it derives no wallet,
    queries no balance, and answers [{scanned: 0, walletsWithUsdc: []}]. *)
Theorem recover_scan_no_sessions svc env req w :
  Recover.method req = "GET" ->
  Recover.authorized env (Recover.q_secret req) = true ->
  falsy (Recover.q_sessionId req) = true ->
  fault (kv w) = None ->
  counters (kv w) !! counterKey = None \/ counters (kv w) !! counterKey = Some 0 ->
  let w' := fst (Recover.handler svc env req w) in
  Recover.handler svc env req w
    = (logged w [EvRedisGet counterKey], scanned 0 [])
  /\ derivedIndices (trace w') = derivedIndices (trace w)
  /\ queriedAddresses (trace w') = queriedAddresses (trace w)
  /\ kv w' = kv w.
Proof.
  intros Hm Ha Hsid Hf Hzero w'.
  assert (Hrun : Recover.handler svc env req w
                 = (logged w [EvRedisGet counterKey], scanned 0 [])).
  { rewrite recover_accepted by done. rewrite Hsid.
    unfold try_catch, Recover.scan.
    erewrite bind_run by (by apply redis_get_run).
    by destruct Hzero as [-> | ->]. }
  subst w'. rewrite Hrun. cbn [fst logged trace kv].
  rewrite derivedIndices_app, queriedAddresses_app. cbn.
  by rewrite !app_nil_r.
Qed.

Lemma recover_scan_no_sessions_witness :
  let svc := Demo.services 5 Demo.someBalance in
  let w := Demo.worldOf (Demo.storeOf None [Demo.session 1 pending 5 None]) in
  let req := Demo.recoverReq (QStr "") (QStr "dayafterday2026") in
  let w' := fst (Recover.handler svc Demo.env req w) in
  Recover.handler svc Demo.env req w
    = (logged w [EvRedisGet counterKey], scanned 0 [])
  /\ derivedIndices (trace w') = derivedIndices (trace w)
  /\ queriedAddresses (trace w') = queriedAddresses (trace w)
  /\ kv w' = kv w.
Proof.
  intros svc w req.
  apply (recover_scan_no_sessions svc Demo.env req w);
    [reflexivity | reflexivity | reflexivity | reflexivity
    | left; reflexivity].
Defined.

(** ** The handlers of [api/recover.js] never write to the store *)

Lemma redis_get_kv key w : kv (fst (redis_get key w)) = kv w.
Proof.
  unfold redis_get. rewrite storeCall_run. by destruct (fault (kv w)).
Qed.

Lemma redis_getJson_kv key w : kv (fst (redis_getJson key w)) = kv w.
Proof.
  unfold redis_getJson. rewrite storeCall_run. by destruct (fault (kv w)).
Qed.

Lemma scanLoop_kv svc total n : forall i found w,
  kv (fst (Recover.scanLoop svc n i total found w)) = kv w.
Proof.
  induction n as [|n IH]; intros i found w; [done|].
  cbn [Recover.scanLoop]. destruct (i <=? total); [|done].
  unfold mbind, M_bind.
  rewrite getConnection_run.
  destruct (solana_getConnection svc) as [c|?]; [|done].
  rewrite getSessionKeypair_run.
  destruct (wallet_getSessionKeypair svc i) as [kp|?]; [|done].
  rewrite getUsdcBalance_run.
  destruct (solana_getUsdcBalance svc c (publicKey kp)) as [bal|?]; [|done].
  by rewrite IH.
Qed.

Lemma scan_kv svc w : kv (fst (try_catch (Recover.scan svc) w)) = kv w.
Proof.
  unfold try_catch, Recover.scan, mbind, M_bind.
  pose proof (redis_get_kv counterKey w) as Hget.
  destruct (redis_get counterKey w) as [w1 [counter|?]]; cbn in Hget; [|done].
  match goal with |- context [Recover.scanLoop svc ?n ?i ?t ?f w1] =>
    pose proof (scanLoop_kv svc t n i f w1) as Hloop;
    destruct (Recover.scanLoop svc n i t f w1) as [w2 [found|?]]
  end; cbn in *; congruence.
Qed.

(** Either the handler leaves the store as it found it, or it handed
    over to the poll handler, on a world with the store as it found it. *)
Lemma recover_kv svc env req w :
  kv (fst (Recover.handler svc env req w)) = kv w
  \/ exists q w1, kv w1 = kv w
       /\ fst (Recover.handler svc env req w) = fst (pollHandler svc q w1).
Proof.
  unfold Recover.handler.
  case_decide; [by left|].
  destruct (bool_decide (Recover.method req = "GET")); [|by left].
  destruct (Recover.authorized env (Recover.q_secret req)); [|by left].
  cbn [negb]. destruct (falsy (Recover.q_sessionId req)).
  { left. apply scan_kv. }
  unfold try_catch, Recover.recoverSession, mbind, M_bind.
  pose proof (redis_getJson_kv
    (Recover.sessionKey (Recover.q_sessionId req)) w) as Hget.
  destruct (redis_getJson _ w) as [w1 [[s|]|?]]; cbn in Hget;
    [|by left|by left].
  case_decide; [by left|].
  rewrite getConnection_run.
  destruct (solana_getConnection svc) as [c|?]; [|by left].
  rewrite getSessionKeypair_run.
  destruct (wallet_getSessionKeypair svc (sessionIndex s)) as [kp|?]; [|by left].
  rewrite getUsdcBalance_run.
  destruct (solana_getUsdcBalance svc c (publicKey kp)) as [bal|?]; [|by left].
  destruct (Qltb bal (REQUIRED_USDC svc)); [by left|].
  right. unfold callPoll, mbind, M_bind, emit. cbn.
  match goal with |- context [pollHandler svc ?q ?w0] =>
    exists q, w0; split; [done|];
    by destruct (pollHandler svc q w0) as [w2 [out|?]]
  end.
Qed.

(** ** api/test-mint.js: creating a session *)

Lemma redis_incr_run key w :
  fault (kv w) = None ->
  redis_incr key w =
    let n := default 0 (counters (kv w) !! key) + 1 in
    ({| kv := {| fault := fault (kv w);
                 counters := <[key := n]> (counters (kv w));
                 records := records (kv w) |};
        ticks := ticks w; trace := (trace w ++ [EvRedisIncr key])%list |}, Ok n).
Proof. intros Hf. unfold redis_incr. rewrite storeCall_run, Hf. reflexivity. Qed.

Lemma redis_set_run key v ttl w :
  fault (kv w) = None ->
  redis_set key v ttl w =
    ({| kv := {| fault := fault (kv w);
                 counters := counters (kv w);
                 records := <[key := (v, ttl)]> (records (kv w)) |};
        ticks := ticks w; trace := (trace w ++ [EvRedisSet key ttl])%list |}, Ok tt).
Proof. intros Hf. unfold redis_set. rewrite storeCall_run, Hf. reflexivity. Qed.

(** The session the creation builds in [w], and the world it leaves. *)
Lemma createSession_run svc w master kp :
  fault (kv w) = None ->
  wallet_getMasterKeypair svc = Ok master ->
  let idx := default 0 (counters (kv w) !! counterKey) + 1 in
  wallet_getSessionKeypair svc idx = Ok kp ->
  let s := TestMint.newSession (REQUIRED_USDC svc) idx (publicKey kp)
             (publicKey master) (clock svc (ticks w))
             (clock svc (S (ticks w))) (clock svc (S (S (ticks w)))) in
  TestMint.createSession svc w =
    ({| kv := {| fault := fault (kv w);
                 counters := <[counterKey := idx]> (counters (kv w));
                 records := <["session:" +:+ sessionId s := (s, 60 * 30)]>
                              (records (kv w)) |};
        ticks := S (S (S (ticks w)));
        trace := (trace w ++ [EvRedisIncr counterKey; EvDeriveMaster;
                              EvDerive idx;
                              EvRedisSet ("session:" +:+ sessionId s) (60 * 30)])%list |},
     Ok s).
Proof.
  intros Hf Hmaster idx Hkp s. unfold TestMint.createSession.
  erewrite bind_run by (by apply redis_incr_run). cbv zeta. fold idx.
  erewrite bind_run by (by rewrite getMasterKeypair_run, Hmaster).
  erewrite bind_run by (by rewrite getSessionKeypair_run, Hkp).
  unfold Date_now at 1 2 3. unfold mbind at 1 2 3. unfold M_bind at 1 2 3.
  cbn [kv ticks trace logged]. fold s.
  erewrite bind_run by (by apply redis_set_run).
  cbn [kv ticks trace fault counters records]. unfold mret, M_ret.
  rewrite <- !app_assoc. reflexivity.
Qed.

(** A creation that succeeded went through every step. *)
Lemma createSession_inv svc w w' s :
  TestMint.createSession svc w = (w', Ok s) ->
  exists master kp,
    fault (kv w) = None
    /\ wallet_getMasterKeypair svc = Ok master
    /\ wallet_getSessionKeypair svc
         (default 0 (counters (kv w) !! counterKey) + 1) = Ok kp.
Proof.
  unfold TestMint.createSession, mbind, M_bind.
  unfold redis_incr at 1. rewrite storeCall_run.
  destruct (fault (kv w)) eqn:Hf; [done|]. cbn [fst snd].
  rewrite getMasterKeypair_run.
  destruct (wallet_getMasterKeypair svc) as [master|?]; [|done].
  rewrite getSessionKeypair_run.
  destruct (wallet_getSessionKeypair svc _) as [kp|?] eqn:Hkp; [|done].
  intros _. by exists master, kp.
Qed.

Lemma testMint_run svc req w w1 s :
  TestMint.method req <> "OPTIONS" ->
  TestMint.createSession svc w = (w1, Ok s) ->
  TestMint.handler svc req w =
    let w2 := logged w1 [EvPoll (testPoll s)] in
    (fst (pollHandler svc (testPoll s) w2),
     testMinted s (snd (pollHandler svc (testPoll s) w2))).
Proof.
  intros Hm Hcreate. unfold TestMint.handler. rewrite decide_False by done.
  unfold try_catch. erewrite bind_run by exact Hcreate.
  unfold callPoll, mbind, M_bind, emit, testPoll, logged. cbn.
  match goal with |- context [pollHandler svc ?q ?w0] =>
    by destruct (pollHandler svc q w0) as [w2 [out|?]]
  end.
Qed.

(** C8: a creation that finds the store and the wallet deriver working
    succeeds, and the session it creates has the id
    [sess_<index>_<epochMillis>], where [<index>] is the session counter
    after its increment for this creation (one more than before, and
    what the counter then holds, so a later creation gets a larger
    index, the next one this index plus one) and [<epochMillis>] is the
    clock read while the session is being created; the record is stored
    under [session:<sessionId>], and that id is the one the poll handler
    is called with. *)
Theorem session_id_format svc req w master kp :
  fault (kv w) = None ->
  wallet_getMasterKeypair svc = Ok master ->
  let previous := default 0 (counters (kv w) !! counterKey) in
  wallet_getSessionKeypair svc (previous + 1) = Ok kp ->
  exists s w',
    TestMint.createSession svc w = (w', Ok s)
    /\ sessionIndex s = previous + 1
    /\ counters (kv w') !! counterKey = Some (sessionIndex s)
    /\ sessionId s
       = "sess_" +:+ pretty (sessionIndex s) +:+ "_"
         +:+ pretty (clock svc (ticks w))
    /\ (clock svc (S (ticks w)) = clock svc (ticks w) ->
        sessionId s = TestMint.sessionIdOf (sessionIndex s) (createdAt s))
    /\ records (kv w') !! ("session:" +:+ sessionId s) = Some (s, 60 * 30)
    /\ (forall w2 w2' s2,
          sessionIndex s <= default 0 (counters (kv w2) !! counterKey) ->
          TestMint.createSession svc w2 = (w2', Ok s2) ->
          sessionIndex s < sessionIndex s2)
    /\ (forall w2' s2,
          TestMint.createSession svc w' = (w2', Ok s2) ->
          sessionIndex s2 = sessionIndex s + 1)
    /\ (TestMint.method req <> "OPTIONS" ->
        fst (TestMint.handler svc req w)
        = fst (pollHandler svc (testPoll s) (logged w' [EvPoll (testPoll s)]))).
Proof.
  intros Hf Hmaster previous Hkp.
  pose proof (createSession_run svc w master kp Hf Hmaster Hkp) as Hrun.
  cbv zeta in Hrun. fold previous in Hrun.
  eexists _, _. split; [exact Hrun|].
  cbn [sessionIndex sessionId createdAt TestMint.newSession kv counters records].
  split_and!.
  - reflexivity.
  - apply lookup_insert_eq.
  - reflexivity.
  - intros ->. reflexivity.
  - apply lookup_insert_eq.
  - intros w2 w2' s2 Hlater Hcreate2.
    destruct (createSession_inv svc w2 w2' s2 Hcreate2)
      as (master2 & kp2 & Hf2 & Hmaster2 & Hkp2).
    pose proof (createSession_run svc w2 master2 kp2 Hf2 Hmaster2 Hkp2) as Hrun2.
    cbv zeta in Hrun2. rewrite Hrun2 in Hcreate2.
    injection Hcreate2 as _ <-. cbn [sessionIndex TestMint.newSession]. lia.
  - intros w2' s2 Hcreate2.
    destruct (createSession_inv svc _ w2' s2 Hcreate2)
      as (master2 & kp2 & Hf2 & Hmaster2 & Hkp2).
    pose proof (createSession_run svc _ master2 kp2 Hf2 Hmaster2 Hkp2) as Hrun2.
    cbv zeta in Hrun2. rewrite Hrun2 in Hcreate2.
    injection Hcreate2 as _ <-.
    cbn [sessionIndex TestMint.newSession kv counters].
    by rewrite lookup_insert_eq.
  - intros Hm. by rewrite (testMint_run svc req w _ _ Hm Hrun).
Qed.

Lemma session_id_format_witness :
  let svc := Demo.services 5 Demo.noBalance in
  let w := Demo.worldOf (Demo.storeOf (Some 41) []) in
  exists s w',
    TestMint.createSession svc w = (w', Ok s)
    /\ sessionIndex s = 42
    /\ sessionId s = "sess_42_1767225600000"
    /\ records (kv w') !! "session:sess_42_1767225600000" = Some (s, 1800).
Proof.
  intros svc w.
  destruct (session_id_format svc {| TestMint.method := "GET" |} w
              {| publicKey := "master" |} (Demo.keypairOf 42))
    as (s & w' & Hrun & Hidx & _ & Hid & _ & Hrec & _ & _ & _);
    [reflexivity | reflexivity | reflexivity |].
  exists s, w'. split; [exact Hrun|].
  assert (Hidx' : sessionIndex s = 42) by exact Hidx.
  assert (Hid' : sessionId s = "sess_42_1767225600000").
  { rewrite Hid, Hidx'. reflexivity. }
  split_and!; [exact Hidx'|exact Hid'|].
  rewrite <- Hid'. exact Hrec.
Defined.

(** ** The invariant [mintAddress <> null <-> status = minted] *)

Lemma newSession_fresh R idx pay buyer t0 t1 t2 :
  let s := TestMint.newSession R idx pay buyer t0 t1 t2 in
  status s = pending /\ mintAddress s = None /\ mintSignature s = None
  /\ sweepSignature s = None /\ mint_inv s.
Proof. cbn. unfold mint_inv. cbn. split_and!; try done. Qed.

Lemma store_inv_records st st' :
  records st' = records st -> store_inv st -> store_inv st'.
Proof. unfold store_inv. by intros ->. Qed.

Lemma store_inv_insert st f c key s ttl :
  store_inv st -> mint_inv s ->
  store_inv {| fault := f; counters := c;
               records := <[key := (s, ttl)]> (records st) |}.
Proof. intros Hst Hs. unfold store_inv. cbn. by apply map_Forall_insert_2. Qed.

Lemma createSession_store_inv svc w :
  store_inv (kv w) -> store_inv (kv (fst (TestMint.createSession svc w))).
Proof.
  intros Hinv.
  destruct (fault (kv w)) as [msg|] eqn:Hf.
  { unfold TestMint.createSession.
    erewrite bind_throw by (by apply redis_fault). done. }
  destruct (wallet_getMasterKeypair svc) as [master|?] eqn:Hmaster.
  2:{ unfold TestMint.createSession.
      erewrite bind_run by (by apply redis_incr_run). cbv zeta.
      erewrite bind_throw by (by rewrite getMasterKeypair_run, Hmaster).
      cbn. by eapply store_inv_records. }
  destruct (wallet_getSessionKeypair svc
              (default 0 (counters (kv w) !! counterKey) + 1))
    as [kp|?] eqn:Hkp.
  2:{ unfold TestMint.createSession.
      erewrite bind_run by (by apply redis_incr_run). cbv zeta.
      erewrite bind_run by (by rewrite getMasterKeypair_run, Hmaster).
      erewrite bind_throw by (by rewrite getSessionKeypair_run, Hkp).
      cbn. by eapply store_inv_records. }
  rewrite (createSession_run svc w master kp Hf Hmaster Hkp). cbn [fst kv].
  apply store_inv_insert; [done|]. apply newSession_fresh.
Qed.

Lemma testMint_store_inv svc req w :
  (forall q w, store_inv (kv w) -> store_inv (kv (fst (pollHandler svc q w)))) ->
  store_inv (kv w) -> store_inv (kv (fst (TestMint.handler svc req w))).
Proof.
  intros Hpoll Hinv. unfold TestMint.handler. case_decide; [done|].
  pose proof (createSession_store_inv svc w Hinv) as Hcreate.
  unfold try_catch, mbind, M_bind.
  destruct (TestMint.createSession svc w) as [w1 [s|?]]; [|done].
  unfold callPoll, mbind, M_bind, emit. cbn.
  match goal with |- context [pollHandler svc ?q ?w0] =>
    pose proof (Hpoll q w0 Hcreate) as Hafter;
    by destruct (pollHandler svc q w0) as [w2 [out|?]]
  end.
Qed.

(** C6: every session record the handlers write or observe has
    [mintAddress] non-null exactly when its status is [minted], as long
    as the poll handler they call into keeps that true of the store: a
    freshly created record is [pending] with [mintAddress],
    [mintSignature] and [sweepSignature] all null, it is what the
    creation stores, both handlers leave a store whose records all
    satisfy the equivalence when they found one, and so does any record
    read from such a store. *)
Theorem mint_address_iff_minted svc :
  (forall q w, store_inv (kv w) -> store_inv (kv (fst (pollHandler svc q w)))) ->
  (forall w w' s,
     TestMint.createSession svc w = (w', Ok s) ->
     status s = pending /\ mintAddress s = None /\ mintSignature s = None
     /\ sweepSignature s = None /\ mint_inv s
     /\ records (kv w') !! ("session:" +:+ sessionId s) = Some (s, 60 * 30))
  /\ (forall req w,
        store_inv (kv w) -> store_inv (kv (fst (TestMint.handler svc req w))))
  /\ (forall env req w,
        store_inv (kv w) -> store_inv (kv (fst (Recover.handler svc env req w))))
  /\ (forall key w s,
        store_inv (kv w) -> snd (redis_getJson key w) = Ok (Some s) ->
        mintAddress s <> None <-> status s = minted).
Proof.
  intros Hpoll. split_and!.
  - intros w w' s Hcreate.
    destruct (createSession_inv svc w w' s Hcreate)
      as (master & kp & Hf & Hmaster & Hkp).
    rewrite (createSession_run svc w master kp Hf Hmaster Hkp) in Hcreate.
    injection Hcreate as <- <-.
    cbn [status mintAddress mintSignature sweepSignature TestMint.newSession
         kv records].
    split_and!;
      [done | done | done | done | apply newSession_fresh
      | apply lookup_insert_eq].
  - intros req w. by apply testMint_store_inv.
  - intros env req w Hinv.
    destruct (recover_kv svc env req w) as [-> | (q & w1 & Hkv & ->)]; [done|].
    apply Hpoll. by rewrite Hkv.
  - intros key w s Hinv. unfold redis_getJson. rewrite storeCall_run.
    destruct (fault (kv w)); [done|]. cbn.
    destruct (records (kv w) !! key) as [[s' ttl]|] eqn:Hs; [|done].
    cbn. intros [= <-]. exact (Hinv key (s', ttl) Hs).
Qed.

(** *** The lifecycle handler of section 4.1 keeps the invariant *)

Lemma preserves_bind {A B} (m : M A) (f : A -> M B) :
  preserves m -> (forall a, preserves (f a)) -> preserves (x ← m; f x).
Proof.
  intros Hm Hf w Hinv. unfold mbind, M_bind.
  specialize (Hm w Hinv). destruct (m w) as [w1 [a|?]]; cbn in *; [|done].
  by apply Hf.
Qed.

Lemma preserves_mret {A} (a : A) : preserves (mret a).
Proof. by intros w Hinv. Qed.

Lemma preserves_lift {A} (r : Res A) : preserves (lift r).
Proof. by intros w Hinv. Qed.

Lemma preserves_emit e : preserves (emit e).
Proof. by intros w Hinv. Qed.

Lemma preserves_get_store : preserves get_store.
Proof. by intros w Hinv. Qed.

Lemma preserves_getJson key : preserves (redis_getJson key).
Proof. intros w Hinv. by rewrite redis_getJson_kv. Qed.

Lemma preserves_set key v ttl : mint_inv v -> preserves (redis_set key v ttl).
Proof.
  intros Hv w Hinv. unfold redis_set. rewrite storeCall_run.
  destruct (fault (kv w)); [done|]. cbn. by apply store_inv_insert.
Qed.

Lemma withMint_inv s a sg : mint_inv (Poll.withMint s a sg).
Proof. unfold mint_inv. cbn. split; done. Qed.

Lemma withSweep_inv s sg : mint_inv s -> mint_inv (Poll.withSweep s sg).
Proof. unfold mint_inv. cbn. done. Qed.

Lemma advance_preserves chain key s test :
  preserves (Poll.advance chain key s test).
Proof.
  unfold Poll.advance. case_decide; [apply preserves_mret|].
  apply preserves_bind.
  { destruct test; [apply preserves_mret|].
    repeat (apply preserves_bind; [|intros ?]);
      auto using preserves_mret, preserves_lift, preserves_emit. }
  intros enough. destruct enough; cbn [negb]; [|apply preserves_mret].
  apply preserves_bind; [apply preserves_emit|intros _].
  apply preserves_bind; [apply preserves_lift|intros [address signature]].
  apply preserves_bind; [apply preserves_get_store|intros st].
  apply preserves_bind; [apply preserves_set, withMint_inv|intros _].
  apply preserves_bind; [apply preserves_emit|intros _].
  apply preserves_bind; [apply preserves_lift|intros sweep].
  apply preserves_bind; [|intros _; apply preserves_mret].
  apply preserves_set, withSweep_inv, withMint_inv.
Qed.

Lemma poll_store_inv chain q w :
  store_inv (kv w) -> store_inv (kv (fst (Poll.handler chain q w))).
Proof.
  intros Hinv. unfold Poll.handler.
  match goal with |- context [match ?m w with _ => _ end] =>
    assert (Hm : preserves m); [|specialize (Hm w Hinv);
      by destruct (m w) as [w1 [out|?]]]
  end.
  destruct (falsy (p_sessionId q)); [apply preserves_mret|].
  apply preserves_bind; [apply preserves_getJson|].
  intros [s|]; [apply advance_preserves|apply preserves_mret].
Qed.

Lemma mint_address_iff_minted_witness :
  let svc := Demo.services 5 Demo.noBalance in
  let s := Demo.session 1 pending 5 None in
  let w := Demo.worldOf (Demo.storeOf (Some 1) [s]) in
  let minted1 := fst (TestMint.handler svc {| TestMint.method := "GET" |} w) in
  store_inv (kv minted1)
  /\ store_inv (kv (fst (Recover.handler svc Demo.env
        (Demo.recoverReq (QStr "sess_2_1767225600000") (QStr "correct horse"))
        minted1))).
Proof.
  intros svc s w minted1.
  destruct (mint_address_iff_minted svc) as (_ & Htest & Hrecover & _).
  { intros q w0. apply poll_store_inv. }
  assert (Hw : store_inv (kv w)).
  { apply map_Forall_insert_2; [|apply map_Forall_empty].
    unfold mint_inv. cbn. split; done. }
  split; [|apply Hrecover]; by apply Htest.
Defined.

(** ** api/upload.js *)

(** What keeps an upload from failing, and what it then answers. *)
Lemma upload_run svc env req w form file buf pinData cid :
  Upload.method req = "POST" ->
  Upload.trim (default "" (Upload.PINATA_JWT env)) <> "" ->
  Upload.parsed req = Ok form ->
  Upload.pickFile (Upload.files_file form) = Some file ->
  fs_readFileSync svc (Upload.filepath file) = Ok buf ->
  let mimeType := Upload.pickMimeType file in
  let filename := "day-after-day-" +:+ pretty (clock svc (ticks w)) +:+ "."
                  +:+ Upload.extension mimeType in
  pinata_pinFileToIPFS svc (Upload.trim (default "" (Upload.PINATA_JWT env)))
    filename mimeType buf = Ok pinData ->
  IpfsHash pinData = Some cid ->
  cid <> "" ->
  Upload.handler svc env req w =
    ({| kv := kv w; ticks := S (ticks w);
        trace := (trace w ++ [EvReadFile (Upload.filepath file);
                              EvPin filename;
                              EvUnlink (Upload.filepath file)])%list |},
     respond 200
       (Upload.successBody (Upload.gateway +:+ cid) cid mimeType
          (Upload.pickOutputType (Upload.fields_outputType form)))).
Proof.
  intros Hm Hjwt Hform Hfile Hread mimeType filename Hpin Hhash Hcid.
  unfold Upload.handler, Upload.upload. rewrite Hm. cbn [negb].
  rewrite decide_False by done. rewrite bool_decide_eq_true_2 by done.
  cbn [negb]. rewrite decide_False by done.
  unfold try_catch, mbind, M_bind, lift, emit, Date_now, throw.
  rewrite Hform, Hfile. cbn [kv ticks trace]. rewrite Hread.
  fold mimeType. cbn [kv ticks trace]. fold filename. rewrite Hpin, Hhash.
  destruct cid as [|ch rest]; [done|].
  cbn. rewrite <- !app_assoc. reflexivity.
Qed.

(** An upload answered 200 with a body went through every step. *)
Lemma upload_inv svc env req w w' r :
  Upload.handler svc env req w = (w', r) ->
  code r = 200 ->
  Upload.method req <> "OPTIONS" ->
  exists form file buf pinData cid,
    Upload.parsed req = Ok form
    /\ Upload.pickFile (Upload.files_file form) = Some file
    /\ fs_readFileSync svc (Upload.filepath file) = Ok buf
    /\ pinata_pinFileToIPFS svc
         (Upload.trim (default "" (Upload.PINATA_JWT env)))
         ("day-after-day-" +:+ pretty (clock svc (ticks w)) +:+ "."
          +:+ Upload.extension (Upload.pickMimeType file))
         (Upload.pickMimeType file) buf = Ok pinData
    /\ IpfsHash pinData = Some cid
    /\ r = respond 200
             (Upload.successBody (Upload.gateway +:+ cid) cid
                (Upload.pickMimeType file)
                (Upload.pickOutputType (Upload.fields_outputType form))).
Proof.
  intros Hrun Hcode Hm. unfold Upload.handler in Hrun.
  rewrite decide_False in Hrun by done.
  destruct (bool_decide (Upload.method req = "POST")); cbn [negb] in Hrun;
    [|simplify_eq; done].
  unfold try_catch, Upload.upload in Hrun. case_decide as Hjwt.
  { cbn in Hrun. by simplify_eq. }
  unfold mbind, M_bind, throw, lift, emit, Date_now in Hrun.
  destruct (Upload.parsed req) as [form|?] eqn:Hform;
    [|cbn in Hrun; by simplify_eq].
  destruct (Upload.pickFile (Upload.files_file form)) as [file|] eqn:Hfile;
    [|cbn in Hrun; by simplify_eq].
  cbn [kv ticks trace] in Hrun.
  destruct (fs_readFileSync svc (Upload.filepath file)) as [buf|?] eqn:Hread;
    [|cbn in Hrun; by simplify_eq].
  cbn [kv ticks trace] in Hrun.
  destruct (pinata_pinFileToIPFS svc _ _ _ buf) as [pinData|?] eqn:Hpin;
    [|cbn in Hrun; by simplify_eq].
  destruct (IpfsHash pinData) as [[|ch rest]|] eqn:Hhash;
    [cbn in Hrun; by simplify_eq| |cbn in Hrun; by simplify_eq].
  cbn in Hrun. injection Hrun as _ <-.
  by exists form, file, buf, pinData, (String ch rest).
Qed.

(** C7: an upload that is answered 200 returns the object [{success,
    fileUri, cid, mimeType, outputType}] in which [cid] is the
    [IpfsHash] the pinning service returned for this file and [fileUri]
    is the gateway prefix followed by that [cid]; and an upload whose
    form, file and pinning call all succeed is answered so. *)
Theorem upload_returns_gateway_uri svc env req w :
  (forall w' r,
     Upload.handler svc env req w = (w', r) ->
     code r = 200 -> Upload.method req <> "OPTIONS" ->
     exists jwt filename mimeType buf pinData cid outputType,
       pinata_pinFileToIPFS svc jwt filename mimeType buf = Ok pinData
       /\ IpfsHash pinData = Some cid
       /\ body r = Some (JObj [("success", JBool true);
                               ("fileUri", JStr ("https://gateway.pinata.cloud/ipfs/" +:+ cid));
                               ("cid", JStr cid);
                               ("mimeType", JStr mimeType);
                               ("outputType", JStr outputType)]))
  /\ (forall form file buf pinData cid,
        Upload.method req = "POST" ->
        Upload.trim (default "" (Upload.PINATA_JWT env)) <> "" ->
        Upload.parsed req = Ok form ->
        Upload.pickFile (Upload.files_file form) = Some file ->
        fs_readFileSync svc (Upload.filepath file) = Ok buf ->
        pinata_pinFileToIPFS svc
          (Upload.trim (default "" (Upload.PINATA_JWT env)))
          ("day-after-day-" +:+ pretty (clock svc (ticks w)) +:+ "."
           +:+ Upload.extension (Upload.pickMimeType file))
          (Upload.pickMimeType file) buf = Ok pinData ->
        IpfsHash pinData = Some cid -> cid <> "" ->
        let r := snd (Upload.handler svc env req w) in
        code r = 200
        /\ (exists j, body r = Some j
              /\ field "success" j = Some (JBool true)
              /\ field "cid" j = Some (JStr cid)
              /\ field "fileUri" j
                 = Some (JStr ("https://gateway.pinata.cloud/ipfs/" +:+ cid))
              /\ field "mimeType" j = Some (JStr (Upload.pickMimeType file))
              /\ field "outputType" j
                 = Some (JStr (Upload.pickOutputType
                                 (Upload.fields_outputType form))))).
Proof.
  split.
  - intros w' r Hrun Hcode Hm.
    destruct (upload_inv svc env req w w' r Hrun Hcode Hm)
      as (form & file & buf & pinData & cid & _ & _ & _ & Hpin & Hhash & ->).
    by eexists _, _, _, _, _, _, _.
  - intros form file buf pinData cid Hm Hjwt Hform Hfile Hread Hpin Hhash Hcid r.
    subst r.
    rewrite (upload_run svc env req w form file buf pinData cid) by done.
    split; [done|]. eexists. split; [reflexivity|]. by split_and!.
Qed.

Lemma upload_returns_gateway_uri_witness :
  let svc := Demo.services 5 Demo.noBalance in
  let w := Demo.worldOf (Demo.storeOf None []) in
  let req := Demo.uploadReq (Some "image/png") (QStr "photo") in
  let r := snd (Upload.handler svc Demo.uploadEnv req w) in
  code r = 200
  /\ (exists j, body r = Some j
        /\ field "success" j = Some (JBool true)
        /\ field "cid" j = Some (JStr "bafkreidemo")
        /\ field "fileUri" j
           = Some (JStr "https://gateway.pinata.cloud/ipfs/bafkreidemo")
        /\ field "mimeType" j = Some (JStr "image/png")
        /\ field "outputType" j = Some (JStr "photo")).
Proof.
  intros svc w req.
  refine (proj2 (upload_returns_gateway_uri svc Demo.uploadEnv req w)
            (Demo.uploadForm (Some "image/png") (QStr "photo"))
            (Demo.uploadFile (Some "image/png")) [] Demo.pinned
            "bafkreidemo" _ _ _ _ _ _ _ _);
    [reflexivity | discriminate | reflexivity | reflexivity | reflexivity
    | reflexivity | reflexivity | discriminate].
Defined.

(** C10: in the answer to a successful upload, [outputType] is
    ["video"] when the form has no [outputType] field, and [mimeType] is
    ["video/webm"] when the uploaded file carries no mime type. *)
Theorem upload_defaults svc env req w form file buf pinData cid :
  Upload.method req = "POST" ->
  Upload.trim (default "" (Upload.PINATA_JWT env)) <> "" ->
  Upload.parsed req = Ok form ->
  Upload.pickFile (Upload.files_file form) = Some file ->
  fs_readFileSync svc (Upload.filepath file) = Ok buf ->
  pinata_pinFileToIPFS svc
    (Upload.trim (default "" (Upload.PINATA_JWT env)))
    ("day-after-day-" +:+ pretty (clock svc (ticks w)) +:+ "."
     +:+ Upload.extension (Upload.pickMimeType file))
    (Upload.pickMimeType file) buf = Ok pinData ->
  IpfsHash pinData = Some cid -> cid <> "" ->
  exists j,
    snd (Upload.handler svc env req w) = respond 200 j
    /\ (Upload.fields_outputType form = QUndef ->
        field "outputType" j = Some (JStr "video"))
    /\ (Upload.mimetype file = None ->
        field "mimeType" j = Some (JStr "video/webm")).
Proof.
  intros Hm Hjwt Hform Hfile Hread Hpin Hhash Hcid.
  rewrite (upload_run svc env req w form file buf pinData cid) by done.
  eexists. split; [reflexivity|]. split.
  - intros ->. reflexivity.
  - intros Hmime. cbn. unfold Upload.pickMimeType. rewrite Hmime. reflexivity.
Qed.

Lemma upload_defaults_witness :
  let svc := Demo.services 5 Demo.noBalance in
  let w := Demo.worldOf (Demo.storeOf None []) in
  let req := Demo.uploadReq None QUndef in
  exists j,
    snd (Upload.handler svc Demo.uploadEnv req w) = respond 200 j
    /\ field "outputType" j = Some (JStr "video")
    /\ field "mimeType" j = Some (JStr "video/webm").
Proof.
  intros svc w req.
  destruct (upload_defaults svc Demo.uploadEnv req w
              (Demo.uploadForm None QUndef) (Demo.uploadFile None)
              [] Demo.pinned "bafkreidemo")
    as (j & Hrun & Hout & Hmime);
    [reflexivity | discriminate | reflexivity | reflexivity | reflexivity
    | reflexivity | reflexivity | discriminate |].
  exists j. split_and!; [exact Hrun | by apply Hout | by apply Hmime].
Defined.

(** * Further properties of the handlers *)

(** ** api/recover.js: errors and the trigger *)

(** X1: an accepted request naming a session the store does not hold
    (never created, or expired) is answered 404 after the one read of
    the store; no wallet is derived and no balance queried. *)
Theorem recover_unknown_session svc env req w :
  Recover.method req = "GET" ->
  Recover.authorized env (Recover.q_secret req) = true ->
  falsy (Recover.q_sessionId req) = false ->
  fault (kv w) = None ->
  records (kv w) !! Recover.sessionKey (Recover.q_sessionId req) = None ->
  Recover.handler svc env req w
  = (logged w [EvRedisGetJson (Recover.sessionKey (Recover.q_sessionId req))],
     respond 404 (JObj [("error", JStr "Session not found")])).
Proof.
  intros Hm Ha Hsid Hf Hnone.
  rewrite recover_accepted by done. rewrite Hsid.
  unfold try_catch, Recover.recoverSession.
  erewrite bind_run by (by apply redis_getJson_run).
  by rewrite Hnone.
Qed.

Lemma recover_unknown_session_witness :
  let svc := Demo.services 5 Demo.noBalance in
  let w := Demo.worldOf (Demo.storeOf (Some 1) [Demo.session 1 pending 5 None]) in
  Recover.handler svc Demo.env
    (Demo.recoverReq (QStr "sess_9_1767225600000") (QStr "correct horse")) w
  = (logged w [EvRedisGetJson "session:sess_9_1767225600000"],
     respond 404 (JObj [("error", JStr "Session not found")])).
Proof.
  intros svc w.
  apply (recover_unknown_session svc Demo.env
           (Demo.recoverReq (QStr "sess_9_1767225600000") (QStr "correct horse")) w);
    [reflexivity | reflexivity | reflexivity | reflexivity
    | vm_compute; reflexivity].
Defined.





(** X3: a failing service surfaces as a 500 carrying the service's
    message, with the store untouched and the poll handler not called:
    an unreachable store (in both modes, after the one call that found
    it unreachable), and, for a session that exists and is not minted,
    a failing connection, wallet derivation or balance query. *)
Theorem recover_failure_is_500 svc env req w msg :
  Recover.method req = "GET" ->
  Recover.authorized env (Recover.q_secret req) = true ->
  let w' := fst (Recover.handler svc env req w) in
  let r := snd (Recover.handler svc env req w) in
  (fault (kv w) = Some msg ->
   r = respond 500 (JObj [("error", JStr msg)])
   /\ kv w' = kv w /\ exists e, trace w' = (trace w ++ [e])%list
                                /\ read_only e = true)
  /\ (forall s ttl,
        falsy (Recover.q_sessionId req) = false ->
        fault (kv w) = None ->
        records (kv w) !! Recover.sessionKey (Recover.q_sessionId req)
        = Some (s, ttl) ->
        status s <> minted ->
        solana_getConnection svc = Threw msg
        \/ (exists c, solana_getConnection svc = Ok c
              /\ (wallet_getSessionKeypair svc (sessionIndex s) = Threw msg
                  \/ exists kp,
                       wallet_getSessionKeypair svc (sessionIndex s) = Ok kp
                       /\ solana_getUsdcBalance svc c (publicKey kp) = Threw msg)) ->
        r = respond 500 (JObj [("error", JStr msg)])
        /\ kv w' = kv w
        /\ exists evs, emitted w w' evs /\ forallb read_only evs = true).
Proof.
  intros Hm Ha w' r. subst w' r. rewrite recover_accepted by done.
  unfold try_catch. split.
  - intros Hf. destruct (falsy (Recover.q_sessionId req)).
    + unfold Recover.scan.
      erewrite bind_throw by (by apply redis_fault). cbn.
      split_and!; [done|done|]. by eexists.
    + rewrite (recoverSession_fault svc _ w msg Hf). cbn.
      split_and!; [done|done|]. by eexists.
  - intros s ttl Hsid Hf Hs Hst Hfail. rewrite Hsid.
    rewrite (recoverSession_found svc _ w s ttl Hf Hs). cbv zeta.
    rewrite decide_False by done.
    unfold mbind, M_bind. rewrite getConnection_run.
    destruct Hfail as [Hc | (c & Hc & Hfail)]; rewrite Hc.
    { rewrite logged_logged. cbn [fst snd].
      split_and!; [done|done|]. eexists. split; [apply emitted_logged|done]. }
    rewrite getSessionKeypair_run.
    destruct Hfail as [Hk | (kp & Hk & Hb)]; rewrite Hk.
    { rewrite !logged_logged. cbn [fst snd].
      split_and!; [done|done|]. eexists. split; [apply emitted_logged|done]. }
    rewrite getUsdcBalance_run, Hb, !logged_logged. cbn [fst snd].
    split_and!; [done|done|]. eexists. split; [apply emitted_logged|done].
Qed.

Lemma recover_failure_is_500_witness :
  let s := Demo.session 2 pending 5 None in
  let w := Demo.worldOf (Demo.storeOf (Some 2) [s]) in
  let req := Demo.recoverReq (QStr (sessionId s)) (QStr "correct horse") in
  snd (Recover.handler Samples.flaky Demo.env req w)
  = respond 500 (JObj [("error", JStr "429 Too Many Requests")]).
Proof.
  intros s w req.
  refine (proj1 (proj2 (recover_failure_is_500 Samples.flaky Demo.env req w
                          "429 Too Many Requests" _ _) s 1800 _ _ _ _ _));
    [reflexivity | reflexivity | reflexivity | reflexivity
    | vm_compute; reflexivity | discriminate |].
  right. exists Demo.connection. split; [reflexivity|].
  right. exists (Demo.keypairOf 2). split; reflexivity.
Defined.

(** ** api/recover.js: a scan that meets a failure *)

Lemma scanLoop_abort svc total c address balance j msg n : forall i found w,
  solana_getConnection svc = Ok c ->
  i <= j <= total ->
  (forall k, i <= k < j ->
     wallet_getSessionKeypair svc k = Ok {| publicKey := address k |}
     /\ solana_getUsdcBalance svc c (address k) = Ok (balance k)) ->
  wallet_getSessionKeypair svc j = Threw msg
  \/ (exists kp, wallet_getSessionKeypair svc j = Ok kp
        /\ solana_getUsdcBalance svc c (publicKey kp) = Threw msg) ->
  n = Z.to_nat (total + 1 - i) ->
  exists w',
    Recover.scanLoop svc n i total found w = (w', Threw msg)
    /\ kv w' = kv w
    /\ derivedIndices (trace w')
       = (derivedIndices (trace w) ++ seqZ i (j + 1 - i))%list.
Proof.
  induction n as [|n IH]; intros i found w Hc Hij Hbefore Hfail Hn; [lia|].
  cbn [Recover.scanLoop].
  rewrite (proj2 (Z.leb_le i total)) by lia.
  erewrite bind_run by (by rewrite getConnection_run, Hc).
  destruct (decide (i = j)) as [->|Hne].
  - replace (j + 1 - j) with 1 by lia.
    destruct Hfail as [Hk | (kp & Hk & Hb)].
    + erewrite bind_throw by (by rewrite getSessionKeypair_run, Hk).
      eexists. split; [reflexivity|]. split; [done|].
      rewrite logged_logged. cbn [logged trace].
      rewrite derivedIndices_app. reflexivity.
    + erewrite bind_run by (by rewrite getSessionKeypair_run, Hk).
      erewrite bind_throw by (by rewrite getUsdcBalance_run, Hb).
      eexists. split; [reflexivity|]. split; [done|].
      rewrite !logged_logged. cbn [logged trace].
      rewrite derivedIndices_app. reflexivity.
  - destruct (Hbefore i ltac:(lia)) as [Hk Hb].
    erewrite bind_run by (by rewrite getSessionKeypair_run, Hk).
    cbn [publicKey].
    erewrite bind_run by (by rewrite getUsdcBalance_run, Hb).
    edestruct (IH (i + 1)) as (w' & Hrun & Hkv & Hidx);
      [exact Hc | | | exact Hfail | | ].
    { lia. }
    { intros k Hk'. apply Hbefore. lia. }
    { lia. }
    exists w'. split; [exact Hrun|]. split; [by rewrite Hkv|].
    rewrite Hidx, !logged_logged. cbn [logged trace].
    rewrite derivedIndices_app. cbn.
    rewrite (seqZ_cons i (j + 1 - i)) by lia.
    replace (Z.pred (j + 1 - i)) with (j + 1 - (i + 1)) by lia.
    replace (Z.succ i) with (i + 1) by lia.
    by rewrite <- app_assoc.
Qed.

(** X4: the scan is all or nothing.  When the probe of an index [j] of
    the window fails (its wallet cannot be derived, or its balance
    cannot be queried) after the earlier probes succeeded, the answer is
    a 500 with that failure's message: the wallets found so far are not
    reported, and no index after [j] is probed. *)
Theorem scan_aborts_on_failure svc env req w c address balance j msg :
  Recover.method req = "GET" ->
  Recover.authorized env (Recover.q_secret req) = true ->
  falsy (Recover.q_sessionId req) = true ->
  fault (kv w) = None ->
  solana_getConnection svc = Ok c ->
  let total := Recover.parseCounter (counters (kv w) !! counterKey) in
  let start := Z.max 1 (total - 20) in
  start <= j <= total ->
  (forall k, start <= k < j ->
     wallet_getSessionKeypair svc k = Ok {| publicKey := address k |}
     /\ solana_getUsdcBalance svc c (address k) = Ok (balance k)) ->
  wallet_getSessionKeypair svc j = Threw msg
  \/ (exists kp, wallet_getSessionKeypair svc j = Ok kp
        /\ solana_getUsdcBalance svc c (publicKey kp) = Threw msg) ->
  let w' := fst (Recover.handler svc env req w) in
  snd (Recover.handler svc env req w) = respond 500 (JObj [("error", JStr msg)])
  /\ kv w' = kv w
  /\ derivedIndices (trace w')
     = (derivedIndices (trace w) ++ seqZ start (j + 1 - start))%list.
Proof.
  intros Hm Ha Hsid Hf Hc total start Hj Hbefore Hfail w'. subst w'.
  rewrite recover_accepted by done. rewrite Hsid.
  unfold try_catch, Recover.scan.
  erewrite bind_run by (by apply redis_get_run).
  fold total. cbv zeta. fold start.
  edestruct (scanLoop_abort svc total c address balance j msg
               (Z.to_nat (total + 1 - start)) start [] (logged w [EvRedisGet counterKey]))
    as (w1 & Hrun & Hkv & Hidx); [done..|].
  erewrite bind_throw by exact Hrun. cbn [fst snd].
  split; [done|]. split; [done|].
  rewrite Hidx. cbn [logged trace]. rewrite derivedIndices_app. cbn.
  by rewrite app_nil_r.
Qed.

Lemma scan_aborts_on_failure_witness :
  let w := Demo.worldOf (Demo.storeOf (Some 3) []) in
  let req := Demo.recoverReq QUndef (QStr "correct horse") in
  let w' := fst (Recover.handler Samples.flaky Demo.env req w) in
  snd (Recover.handler Samples.flaky Demo.env req w)
  = respond 500 (JObj [("error", JStr "429 Too Many Requests")])
  /\ kv w' = kv w
  /\ derivedIndices (trace w') = [1; 2].
Proof.
  intros w req.
  apply (scan_aborts_on_failure Samples.flaky Demo.env req w Demo.connection
           (fun i => publicKey (Demo.keypairOf i)) (fun _ => 1%Q) 2
           "429 Too Many Requests");
    [reflexivity | reflexivity | reflexivity | reflexivity | reflexivity
    | vm_compute; split; discriminate | | ].
  - intros k Hk.
    assert (Hstart : Z.max 1 (Recover.parseCounter
                                (counters (kv w) !! counterKey) - 20) = 1)
      by (vm_compute; reflexivity).
    rewrite Hstart in Hk. assert (k = 1) as -> by lia.
    split; reflexivity.
  - right. exists (Demo.keypairOf 2). split; reflexivity.
Defined.

(** ** api/test-mint.js: failures, the answer, and the ids *)

(** X5: a creation that fails after the counter was incremented has
    used up its index.  When the master or the session wallet cannot be
    derived, the answer is a 500 with the deriver's message, the counter
    keeps its incremented value, no record is written and the poll
    handler is not called. *)
Theorem testMint_failure_consumes_index svc req w msg :
  TestMint.method req <> "OPTIONS" ->
  fault (kv w) = None ->
  let idx := default 0 (counters (kv w) !! counterKey) + 1 in
  wallet_getMasterKeypair svc = Threw msg
  \/ (exists master, wallet_getMasterKeypair svc = Ok master
        /\ wallet_getSessionKeypair svc idx = Threw msg) ->
  let w' := fst (TestMint.handler svc req w) in
  snd (TestMint.handler svc req w) = respond 500 (JObj [("error", JStr msg)])
  /\ counters (kv w') !! counterKey = Some idx
  /\ records (kv w') = records (kv w)
  /\ (trace w' = (trace w ++ [EvRedisIncr counterKey; EvDeriveMaster])%list
      \/ trace w' = (trace w ++ [EvRedisIncr counterKey; EvDeriveMaster;
                                 EvDerive idx])%list).
Proof.
  intros Hm Hf idx Hfail w'. subst w'.
  unfold TestMint.handler. rewrite decide_False by done.
  unfold try_catch, TestMint.createSession.
  destruct Hfail as [Hmaster | (master & Hmaster & Hkp)].
  - erewrite bind_throw.
    2:{ erewrite bind_run by (by apply redis_incr_run). cbv zeta.
        erewrite bind_throw by (by rewrite getMasterKeypair_run, Hmaster).
        reflexivity. }
    cbn. fold idx. split_and!; [done|apply lookup_insert_eq|done|].
    left. by rewrite <- app_assoc.
  - erewrite bind_throw.
    2:{ erewrite bind_run by (by apply redis_incr_run). cbv zeta.
        erewrite bind_run by (by rewrite getMasterKeypair_run, Hmaster).
        erewrite bind_throw by (by rewrite getSessionKeypair_run; fold idx; rewrite Hkp).
        reflexivity. }
    cbn. fold idx. split_and!; [done|apply lookup_insert_eq|done|].
    right. by rewrite <- !app_assoc.
Qed.

Lemma testMint_failure_consumes_index_witness :
  let w := Demo.worldOf (Demo.storeOf (Some 7) []) in
  let w' := fst (TestMint.handler Samples.flaky {| TestMint.method := "GET" |} w) in
  snd (TestMint.handler Samples.flaky {| TestMint.method := "GET" |} w)
  = respond 500 (JObj [("error", JStr "MASTER_WALLET_SEED not configured")])
  /\ counters (kv w') !! counterKey = Some 8
  /\ records (kv w') = records (kv w).
Proof.
  intros w.
  destruct (testMint_failure_consumes_index Samples.flaky
              {| TestMint.method := "GET" |} w "MASTER_WALLET_SEED not configured")
    as (Hr & Hc & Hrec & _);
    [discriminate | reflexivity | left; reflexivity |].
  split_and!; [exact Hr | exact Hc | exact Hrec].
Defined.

(** X6: once the session is created, the answer of test-mint is the
    poll handler's: its status code (200 when the poll handler set
    none) with the new [sessionId], the [paymentAddress] and the poll
    handler's JSON as [mintResult]; a poll handler that throws gives a
    500.  The poll handler is called once, with the new id and
    [test: 'true']. *)
Theorem testMint_answers_like_poll svc req w w1 s :
  TestMint.method req <> "OPTIONS" ->
  TestMint.createSession svc w = (w1, Ok s) ->
  let p := pollHandler svc
             {| p_method := "GET"; p_sessionId := QStr (sessionId s);
                p_test := Some "true" |}
             (logged w1 [EvPoll {| p_method := "GET";
                                   p_sessionId := QStr (sessionId s);
                                   p_test := Some "true" |}]) in
  let r := snd (TestMint.handler svc req w) in
  fst (TestMint.handler svc req w) = fst p
  /\ (forall out, snd p = Ok out ->
        code r = default 200 (statusCall out)
        /\ body r = Some (JObj [("sessionId", JStr (sessionId s));
                                ("paymentAddress", JStr (paymentAddress s));
                                ("mintResult", default JNull (jsonCall out))]))
  /\ (forall msg, snd p = Threw msg ->
        r = respond 500 (JObj [("error", JStr msg)])).
Proof.
  intros Hm Hcreate p r. subst p r.
  rewrite (testMint_run svc req w w1 s Hm Hcreate). cbv zeta. cbn [fst snd].
  unfold testPoll. split; [done|]. split.
  - intros out ->. done.
  - intros msg ->. done.
Qed.

Lemma testMint_answers_like_poll_witness :
  let svc := Demo.services 5 Demo.noBalance in
  let w := Demo.worldOf (Demo.storeOf (Some 41) []) in
  code (snd (TestMint.handler svc {| TestMint.method := "POST" |} w)) = 200.
Proof.
  intros svc w.
  destruct (testMint_answers_like_poll svc {| TestMint.method := "POST" |} w
              (fst (TestMint.createSession svc w))
              (TestMint.newSession 5 42 "wallet-42" "master"
                 1767225600000 1767225600001 1767225600002))
    as (_ & Hok & _); [discriminate | vm_compute; reflexivity |].
  destruct (Hok (Poll.answer 200
                   (JObj [("status", JStr "minted");
                          ("mintAddress", JStr "mint-sess_42_1767225600000")])))
    as [Hcode _]; [vm_compute; reflexivity|].
  exact Hcode.
Defined.

(** *** Session ids are unambiguous *)

Lemma chars_String c s : chars (String c s) = c :: chars s.
Proof. reflexivity. Qed.

Lemma lacks_String a c s : lacks a (String c s) <-> a <> c /\ lacks a s.
Proof. unfold lacks. rewrite chars_String, not_elem_of_cons. done. Qed.

Lemma lacks_empty a : lacks a "".
Proof. unfold lacks. cbn. apply not_elem_of_nil. Qed.

Lemma append_String c s t : String c s +:+ t = String c (s +:+ t).
Proof. reflexivity. Qed.

Lemma append_empty t : "" +:+ t = t.
Proof. reflexivity. Qed.

Lemma lacks_app a s t : lacks a (s +:+ t) <-> lacks a s /\ lacks a t.
Proof.
  induction s as [|c s IH].
  - rewrite append_empty. split; [by split; [apply lacks_empty|]|by intros [_ ?]].
  - rewrite append_String, !lacks_String, IH. tauto.
Qed.

Lemma pretty_N_char_digit x : pretty_N_char x <> "_"%char.
Proof. unfold pretty_N_char. by repeat case_match. Qed.

Lemma pretty_N_go_lacks_underscore x : forall s,
  lacks "_" s -> lacks "_" (pretty_N_go x s).
Proof.
  induction (N.lt_wf_0 x) as [x _ IH]; intros s Hs.
  assert (x = 0 \/ 0 < x)%N as [->|Hpos] by lia.
  - by rewrite pretty_N_go_0.
  - rewrite pretty_N_go_step by done. apply IH.
    + by apply N.div_lt.
    + apply lacks_String. split; [|done].
      intros Heq. by apply (pretty_N_char_digit (x `mod` 10)%N).
Qed.

Lemma pretty_Z_lacks_underscore (z : Z) : lacks "_" (pretty z).
Proof.
  assert (Hpos : forall p : positive, lacks "_" (pretty p)).
  { intros p. unfold pretty, pretty_positive, pretty, pretty_N.
    rewrite decide_False by done.
    apply pretty_N_go_lacks_underscore, lacks_empty. }
  destruct z as [|p|p]; unfold pretty, pretty_Z.
  - apply lacks_String. split; [done|apply lacks_empty].
  - apply Hpos.
  - apply lacks_app. split; [|apply Hpos].
    apply lacks_String. split; [done|apply lacks_empty].
Qed.

Lemma app_underscore_inj a a' b b' :
  lacks "_" a -> lacks "_" a' ->
  a +:+ "_" +:+ b = a' +:+ "_" +:+ b' -> a = a' /\ b = b'.
Proof.
  revert a'. induction a as [|c a IH]; intros [|c' a'] Ha Ha' Heq;
    rewrite ?append_String, ?append_empty in Heq.
  - by injection Heq as ->.
  - injection Heq as <- _. apply lacks_String in Ha' as [Hne _]. done.
  - injection Heq as -> _. apply lacks_String in Ha as [Hne _]. done.
  - injection Heq as -> Heq.
    apply lacks_String in Ha as [_ Ha]. apply lacks_String in Ha' as [_ Ha'].
    destruct (IH a' Ha Ha' Heq) as [-> ->]. done.
Qed.

Lemma sessionIdOf_inj i t i' t' :
  TestMint.sessionIdOf i t = TestMint.sessionIdOf i' t' -> i = i' /\ t = t'.
Proof.
  unfold TestMint.sessionIdOf. rewrite !append_String, !append_empty.
  intros [= Heq].
  apply app_underscore_inj in Heq as [Hi Ht];
    [|apply pretty_Z_lacks_underscore..].
  split; by apply (inj pretty).
Qed.

Lemma createSession_result svc w w1 s :
  TestMint.createSession svc w = (w1, Ok s) ->
  fault (kv w1) = None
  /\ sessionIndex s = default 0 (counters (kv w) !! counterKey) + 1
  /\ counters (kv w1) !! counterKey = Some (sessionIndex s)
  /\ records (kv w1) = <["session:" +:+ sessionId s := (s, 60 * 30)]> (records (kv w))
  /\ (exists t, sessionId s = TestMint.sessionIdOf (sessionIndex s) t)
  /\ status s = pending
  /\ requiredUsdc s = REQUIRED_USDC svc
  /\ wallet_getSessionKeypair svc (sessionIndex s)
     = Ok {| publicKey := paymentAddress s |}.
Proof.
  intros Hcreate.
  destruct (createSession_inv svc w w1 s Hcreate)
    as (master & kp & Hf & Hmaster & Hkp).
  rewrite (createSession_run svc w master kp Hf Hmaster Hkp) in Hcreate.
  injection Hcreate as <- <-.
  cbn [kv fault counters records sessionIndex sessionId status requiredUsdc
       paymentAddress TestMint.newSession].
  split_and!; [done|done|apply lookup_insert_eq|done|by eexists|done|done|].
  rewrite Hkp. by destruct kp.
Qed.

(** X7: session ids are unambiguous, and two creations never share a
    store key.  [sess_<index>_<millis>] determines both the index and
    the time stamp; so a creation that follows another one gets a
    different id, and after it both records are in the store, each
    under its own key. *)
Theorem sessions_do_not_collide svc w w1 w2 s1 s2 :
  TestMint.createSession svc w = (w1, Ok s1) ->
  TestMint.createSession svc w1 = (w2, Ok s2) ->
  (forall i t i' t',
     TestMint.sessionIdOf i t = TestMint.sessionIdOf i' t' -> i = i' /\ t = t')
  /\ sessionId s1 <> sessionId s2
  /\ records (kv w2) !! ("session:" +:+ sessionId s1) = Some (s1, 60 * 30)
  /\ records (kv w2) !! ("session:" +:+ sessionId s2) = Some (s2, 60 * 30).
Proof.
  intros H1 H2.
  destruct (createSession_result svc w w1 s1 H1)
    as (_ & Hi1 & Hc1 & Hr1 & (t1 & Hid1) & _).
  destruct (createSession_result svc w1 w2 s2 H2)
    as (_ & Hi2 & _ & Hr2 & (t2 & Hid2) & _).
  rewrite Hc1 in Hi2. cbn in Hi2.
  assert (Hne : sessionId s1 <> sessionId s2).
  { rewrite Hid1, Hid2. intros Heq%sessionIdOf_inj. lia. }
  split_and!.
  - apply sessionIdOf_inj.
  - exact Hne.
  - rewrite Hr2, lookup_insert_ne.
    + rewrite Hr1. apply lookup_insert_eq.
    + rewrite !append_String, !append_empty. intros [= Heq]. done.
  - rewrite Hr2. apply lookup_insert_eq.
Qed.

Lemma sessions_do_not_collide_witness :
  let svc := Demo.services 5 Demo.noBalance in
  let w := Demo.worldOf (Demo.storeOf (Some 41) []) in
  let first := TestMint.createSession svc w in
  let second := TestMint.createSession svc (fst first) in
  records (kv (fst second)) !! "session:sess_42_1767225600000"
  = Some (TestMint.newSession 5 42 "wallet-42" "master"
            1767225600000 1767225600001 1767225600002, 1800).
Proof.
  intros svc w first second.
  destruct (sessions_do_not_collide svc w (fst first) (fst second)
              (TestMint.newSession 5 42 "wallet-42" "master"
                 1767225600000 1767225600001 1767225600002)
              (TestMint.newSession 5 43 "wallet-43" "master"
                 1767225600003 1767225600004 1767225600005))
    as (_ & _ & Hfirst & _);
    [vm_compute; reflexivity | vm_compute; reflexivity |].
  exact Hfirst.
Defined.



(** ** api/upload.js: what is refused, what is cleaned up *)





(** An [unlink] is not among events that are all of another kind. *)
Ltac no_unlink H :=
  repeat (apply elem_of_cons in H as [H|H]; [discriminate|]);
  by apply elem_of_nil in H.

(** X10: the upload handler never touches the key-value store, and it
    removes the temporary file exactly when the upload succeeds: an
    [unlink] is among its actions if and only if it answers 200 to a
    request other than the OPTIONS preflight.  After a failed read or a
    failed pinning the file is left in place. *)
Theorem upload_unlinks_iff_success svc env req w :
  let w' := fst (Upload.handler svc env req w) in
  let r := snd (Upload.handler svc env req w) in
  kv w' = kv w
  /\ exists evs,
       trace w' = (trace w ++ evs)%list
       /\ ((exists path, EvUnlink path ∈ evs)
           <-> code r = 200 /\ Upload.method req <> "OPTIONS").
Proof.
  intros w' r. subst w' r. unfold Upload.handler.
  assert (Hnil : forall (wr : World * HttpResponse) (P : Prop),
            wr = (w, snd wr) -> ~ P ->
            kv (fst wr) = kv w
            /\ exists evs, trace (fst wr) = (trace w ++ evs)%list
                 /\ ((exists path, EvUnlink path ∈ evs) <-> P)).
  { intros [w0 r0] P [= ->] HP. split; [done|]. exists []. cbn.
    split; [by rewrite app_nil_r|].
    split; [intros [p Hp]; by apply elem_of_nil in Hp|done]. }
  case_decide as Hopt.
  { apply Hnil; [done|]. intros [_ ?]. done. }
  destruct (bool_decide (Upload.method req = "POST")); cbn [negb].
  2:{ apply Hnil; [done|]. cbn. intros [? _]. done. }
  unfold try_catch, Upload.upload. case_decide as Hjwt.
  { apply Hnil; [done|]. cbn. intros [? _]. done. }
  unfold mbind, M_bind, throw, lift, emit, Date_now.
  destruct (Upload.parsed req) as [form|?].
  2:{ apply Hnil; [done|]. cbn. intros [? _]. done. }
  destruct (Upload.pickFile (Upload.files_file form)) as [file|].
  2:{ apply Hnil; [done|]. cbn. intros [? _]. done. }
  cbn [kv ticks trace].
  destruct (fs_readFileSync svc (Upload.filepath file)) as [buf|?].
  2:{ cbn. split; [done|]. eexists. split; [reflexivity|].
      split; [|by intros [? _]].
      intros [p Hp]. no_unlink Hp. }
  cbn [kv ticks trace].
  destruct (pinata_pinFileToIPFS svc _ _ _ buf) as [pinData|?].
  2:{ cbn. split; [done|]. eexists. split; [by rewrite <- app_assoc|].
      split; [|by intros [? _]].
      intros [p Hp]. no_unlink Hp. }
  destruct (IpfsHash pinData) as [[|ch rest]|].
  - cbn. split; [done|]. eexists. split; [by rewrite <- app_assoc|].
    split; [|by intros [? _]]. intros [p Hp]. no_unlink Hp.
  - cbn. split; [done|]. eexists. split; [by rewrite <- !app_assoc|].
    split; [done|]. intros _. exists (Upload.filepath file).
    cbn [app]. rewrite !elem_of_cons. auto.
  - cbn. split; [done|]. eexists. split; [by rewrite <- app_assoc|].
    split; [|by intros [? _]]. intros [p Hp]. no_unlink Hp.
Qed.

(** X11: when the pinning service does not return a content address
    (no [IpfsHash], or an empty one), the upload is answered 500 with
    "Pinata upload failed: " followed by the service's reply; a pinning
    call that throws gives a 500 with its message.  In both cases the
    file was read and one pinning call made, and nothing else. *)
Theorem upload_pin_failure svc env req w form file buf :
  Upload.method req = "POST" ->
  Upload.trim (default "" (Upload.PINATA_JWT env)) <> "" ->
  Upload.parsed req = Ok form ->
  Upload.pickFile (Upload.files_file form) = Some file ->
  fs_readFileSync svc (Upload.filepath file) = Ok buf ->
  let mimeType := Upload.pickMimeType file in
  let filename := "day-after-day-" +:+ pretty (clock svc (ticks w)) +:+ "."
                  +:+ Upload.extension mimeType in
  let pinned := pinata_pinFileToIPFS svc
                  (Upload.trim (default "" (Upload.PINATA_JWT env)))
                  filename mimeType buf in
  let w' := fst (Upload.handler svc env req w) in
  let r := snd (Upload.handler svc env req w) in
  (forall data, pinned = Ok data ->
     IpfsHash data = None \/ IpfsHash data = Some "" ->
     r = respond 500
           (JObj [("error", JStr ("Pinata upload failed: " +:+ stringified data))])
     /\ trace w' = (trace w ++ [EvReadFile (Upload.filepath file);
                                EvPin filename])%list)
  /\ (forall msg, pinned = Threw msg ->
        r = respond 500 (JObj [("error", JStr msg)])
        /\ trace w' = (trace w ++ [EvReadFile (Upload.filepath file);
                                   EvPin filename])%list).
Proof.
  intros Hm Hjwt Hform Hfile Hread mimeType filename pinned w' r.
  subst w' r. unfold Upload.handler, Upload.upload. rewrite Hm. cbn [negb].
  rewrite decide_False by done. rewrite bool_decide_eq_true_2 by done.
  cbn [negb]. rewrite decide_False by done.
  unfold try_catch, mbind, M_bind, throw, lift, emit, Date_now.
  rewrite Hform, Hfile. cbn [kv ticks trace]. rewrite Hread.
  fold mimeType. cbn [kv ticks trace]. fold filename. fold pinned.
  split.
  - intros data -> Hhash. cbn.
    destruct Hhash as [-> | ->]; cbn; by rewrite <- app_assoc.
  - intros msg ->. cbn. by rewrite <- app_assoc.
Qed.

Lemma upload_pin_failure_witness :
  let w := Demo.worldOf (Demo.storeOf None []) in
  snd (Upload.handler Samples.flaky Demo.uploadEnv
         (Demo.uploadReq (Some "image/png") QUndef) w)
  = respond 500 (JObj [("error", JStr "Pinata upload failed: rate limited")]).
Proof.
  intros w.
  refine (proj1 (proj1 (upload_pin_failure Samples.flaky Demo.uploadEnv
                          (Demo.uploadReq (Some "image/png") QUndef) w
                          (Demo.uploadForm (Some "image/png") QUndef)
                          (Demo.uploadFile (Some "image/png")) [] _ _ _ _ _)
                   {| IpfsHash := None; stringified := "rate limited" |} _ _));
    [reflexivity | discriminate | reflexivity | reflexivity | reflexivity
    | reflexivity | left; reflexivity].
Defined.

(** *** The extension of the pinned file's name *)

Lemma split_nonempty sep s : exists h tl, Upload.split sep s = h :: tl.
Proof.
  induction s as [|c s (h & tl & IH)]; cbn; [by eexists _, _|].
  case_decide; [by eexists _, _|]. rewrite IH. by eexists _, _.
Qed.

Lemma split_lacks sep s : lacks sep s -> Upload.split sep s = [s].
Proof.
  induction s as [|c s IH]; [done|]. intros [Hne Hs]%lacks_String. cbn.
  rewrite decide_False by done. by rewrite IH.
Qed.

Lemma split_app sep a b :
  lacks sep a ->
  Upload.split sep (a +:+ String sep b) = a :: Upload.split sep b.
Proof.
  induction a as [|c a IH].
  - intros _. rewrite append_empty. cbn. by rewrite decide_True.
  - intros [Hne Ha]%lacks_String. rewrite append_String. cbn.
    rewrite decide_False by done. by rewrite IH.
Qed.

Lemma split_head_app sep a b h tl :
  lacks sep a -> Upload.split sep b = h :: tl ->
  Upload.split sep (a +:+ b) = (a +:+ h) :: tl.
Proof.
  intros Ha Hb. induction a as [|c a IH]; [done|].
  apply lacks_String in Ha as [Hne Ha]. rewrite !append_String. cbn.
  rewrite decide_False by done. by rewrite IH.
Qed.

(** X12: the extension given to the pinned file is the subtype of the
    mime type, with any parameters after [;] dropped, and ["bin"] when
    the mime type has no [/] or an empty subtype; it is never empty. *)
Theorem upload_extension_is_subtype :
  (forall m, Upload.extension m <> "")
  /\ (forall m, lacks "/" m -> Upload.extension m = "bin")
  /\ (forall t, lacks "/" t -> Upload.extension (t +:+ "/") = "bin")
  /\ (forall t sub,
        lacks "/" t -> lacks "/" sub -> lacks ";" sub -> sub <> "" ->
        Upload.extension (t +:+ "/" +:+ sub) = sub
        /\ forall params,
             Upload.extension (t +:+ "/" +:+ sub +:+ ";" +:+ params) = sub).
Proof.
  split_and!.
  - intros m. unfold Upload.extension, Upload.orElse.
    destruct (_ ≫= _) as [s|]; [|done]. by case_decide.
  - intros m Hm. unfold Upload.extension. by rewrite split_lacks.
  - intros t Ht. unfold Upload.extension. change (t +:+ "/") with (t +:+ String "/" "").
    by rewrite split_app.
  - intros t sub Ht Hsub Hsemi Hne. split.
    + unfold Upload.extension.
      change (t +:+ "/" +:+ sub) with (t +:+ String "/" sub).
      rewrite split_app by done. rewrite (split_lacks "/" sub) by done. cbn.
      rewrite split_lacks by done. cbn. unfold Upload.orElse.
      by rewrite decide_False.
    + intros params. unfold Upload.extension.
      change (t +:+ "/" +:+ sub +:+ ";" +:+ params)
        with (t +:+ String "/" (sub +:+ String ";" params)).
      rewrite split_app by done.
      destruct (split_nonempty "/" params) as (p & ps & Hp).
      assert (Hrest : Upload.split "/" (String ";" params)
                      = String ";" p :: ps).
      { cbn. rewrite decide_False by done. by rewrite Hp. }
      rewrite (split_head_app "/" sub _ _ _ Hsub Hrest). cbn.
      rewrite split_app by done. cbn. unfold Upload.orElse.
      by rewrite decide_False.
Qed.

Lemma lacks_cons a c s : a <> c -> lacks a s -> lacks a (String c s).
Proof. intros Hne Hs. by apply lacks_String. Qed.

Lemma upload_extension_is_subtype_witness :
  Upload.extension "video/webm;codecs=vp9" = "webm".
Proof.
  refine (proj2 (proj2 (proj2 (proj2 upload_extension_is_subtype)) "video" "webm"
                   _ _ _ _) "codecs=vp9");
    [repeat (apply lacks_cons; [discriminate|]); apply lacks_empty
    |repeat (apply lacks_cons; [discriminate|]); apply lacks_empty
    |repeat (apply lacks_cons; [discriminate|]); apply lacks_empty
    |discriminate].
Defined.

(** ** api/master-address.js *)

Lemma funded_threshold n :
  Qleb MasterAddress.minimumSol
    (inject_Z n / inject_Z MasterAddress.LAMPORTS_PER_SOL)
  = (50000000 <=? n).
Proof.
  unfold Qleb, MasterAddress.minimumSol, MasterAddress.LAMPORTS_PER_SOL. cbn.
  apply Bool.eq_iff_eq_true. rewrite !Z.leb_le. lia.
Qed.

Lemma underfunded_threshold n :
  Qltb (inject_Z n / inject_Z MasterAddress.LAMPORTS_PER_SOL)
    MasterAddress.minimumSol
  = negb (50000000 <=? n).
Proof.
  unfold Qltb, MasterAddress.minimumSol, MasterAddress.LAMPORTS_PER_SOL. cbn.
  apply Bool.eq_iff_eq_true. rewrite negb_true_iff, Z.ltb_lt, Z.leb_gt. lia.
Qed.

(** X13: the master wallet is reported funded exactly when it holds at
    least 50,000,000 lamports (0.05 SOL), and exactly then the
    recommendation is "Balance looks good"; below, it asks to send at
    least 0.1 SOL to the master address.  The handler derives the master
    key and makes one balance query; it does not use the store. *)
Theorem master_address_funded svc rpc req w master c lamports :
  MasterAddress.method req = "GET" ->
  wallet_getMasterKeypair svc = Ok master ->
  solana_getConnection svc = Ok c ->
  MasterAddress.connection_getBalance rpc c (publicKey master) = Ok lamports ->
  exists j,
    MasterAddress.handler svc rpc req w
    = (logged w [EvDeriveMaster; EvGetConnection; EvBalance (publicKey master)],
       respond 200 j)
    /\ field "masterAddress" j = Some (JStr (publicKey master))
    /\ field "solBalanceRaw" j = Some (JNum (inject_Z lamports))
    /\ field "funded" j = Some (JBool (50000000 <=? lamports))
    /\ field "recommendation" j
       = Some (JStr (if 50000000 <=? lamports then "Balance looks good"
                     else "Send at least 0.1 SOL to " +:+ publicKey master
                          +:+ " to fund minting operations")).
Proof.
  intros Hm Hmaster Hc Hbal. eexists. split.
  - unfold MasterAddress.handler. rewrite Hm. cbn [negb].
    rewrite decide_False by done. rewrite bool_decide_eq_true_2 by done.
    cbn [negb]. unfold try_catch, MasterAddress.masterAddress.
    erewrite bind_run by (by rewrite getMasterKeypair_run, Hmaster).
    erewrite bind_run by (by rewrite getConnection_run, Hc).
    unfold mbind, M_bind, emit, lift. cbn [kv ticks trace logged].
    rewrite Hbal. unfold mret, M_ret, logged. cbn [kv ticks trace].
    rewrite <- !app_assoc. reflexivity.
  - cbn. rewrite funded_threshold.
    unfold MasterAddress.recommendation. rewrite underfunded_threshold.
    split_and!; [done|done|done|]. by destruct (50000000 <=? lamports).
Qed.

Lemma master_address_funded_witness :
  let svc := Demo.services 5 Demo.noBalance in
  let w := Demo.worldOf (Demo.storeOf None []) in
  exists j,
    snd (MasterAddress.handler svc (Samples.rpc 49999999)
           {| MasterAddress.method := "GET" |} w) = respond 200 j
    /\ field "funded" j = Some (JBool false)
    /\ field "recommendation" j
       = Some (JStr "Send at least 0.1 SOL to master to fund minting operations").
Proof.
  intros svc w.
  destruct (master_address_funded svc (Samples.rpc 49999999)
              {| MasterAddress.method := "GET" |} w
              {| publicKey := "master" |} Demo.connection 49999999)
    as (j & Hrun & _ & _ & Hfunded & Hrec);
    [reflexivity | reflexivity | reflexivity | reflexivity |].
  exists j. split_and!; [by rewrite Hrun | exact Hfunded | exact Hrec].
Defined.

(** ** api/create-collection.js *)

(** X14: the bootstrap endpoint does nothing for a request (other than
    the OPTIONS preflight) whose [secret] is not exactly ['lossy2026']:
    the answer is 401 and nothing is fetched, pinned or minted.  The
    secret is the only guard: the method is not looked at. *)
Theorem create_collection_requires_secret svc env req l :
  CreateCollection.method req <> "OPTIONS" ->
  CreateCollection.q_secret req <> QStr "lossy2026" ->
  CreateCollection.handler svc env req l
  = (l, respond 401 (JObj [("error", JStr "Unauthorized")])).
Proof.
  intros Hm Hs. unfold CreateCollection.handler. rewrite decide_False by done.
  replace (strict_eq_lit (CreateCollection.q_secret req) "lossy2026") with false;
    [done|].
  unfold strict_eq_lit. destruct (CreateCollection.q_secret req); try done.
  case_decide; [by subst|done].
Qed.

Lemma create_collection_requires_secret_witness :
  CreateCollection.handler Samples.collection Samples.collectionEnv
    (Samples.collectionReq (QStr "lossy2025")) []
  = ([], respond 401 (JObj [("error", JStr "Unauthorized")])).
Proof.
  apply create_collection_requires_secret; discriminate.
Defined.

(** Every way the body of the endpoint can go, with what it did. *)
Lemma createCollection_cases svc env l :
  let jwt := Upload.trim (default "" (CreateCollection.PINATA_JWT env)) in
  let run := CreateCollection.createCollection svc env l in
  let fetch := Collection.FetchImage CreateCollection.imageUrl in
  let pinImage image := Collection.Pin "lossy-collection.jpg" "image/jpeg" image in
  let pinMeta uri :=
    Collection.Pin "lossy-collection-metadata.json" "application/json"
      (CreateCollection.JSON_stringify svc (CreateCollection.collectionMetadata uri)) in
  (exists msg, run = (l, Threw msg))
  \/ (exists msg, run = ((l ++ [fetch])%list, Threw msg))
  \/ (exists image msg, run = ((l ++ [fetch; pinImage image])%list, Threw msg))
  \/ (exists image imgData imgHash,
        CreateCollection.fetchImage svc CreateCollection.imageUrl = Ok (true, image)
        /\ CreateCollection.pinFile svc jwt "lossy-collection.jpg" "image/jpeg" image
           = Ok imgData
        /\ IpfsHash imgData = Some imgHash
        /\ let imageUri := Collection.gatewayUri imgHash in
           (exists msg, run = ((l ++ [fetch; pinImage image; pinMeta imageUri])%list,
                               Threw msg))
           \/ (exists metaData metaHash,
                 CreateCollection.pinFile svc jwt "lossy-collection-metadata.json"
                   "application/json"
                   (CreateCollection.JSON_stringify svc
                      (CreateCollection.collectionMetadata imageUri)) = Ok metaData
                 /\ IpfsHash metaData = Some metaHash
                 /\ let metadataUri := Collection.gatewayUri metaHash in
                    (exists msg,
                       run = ((l ++ [fetch; pinImage image; pinMeta imageUri;
                                     Collection.DeriveMaster])%list, Threw msg))
                    \/ (exists master,
                          CreateCollection.wallet_masterKeypair svc = Ok master
                          /\ let steps := [fetch; pinImage image; pinMeta imageUri;
                                           Collection.DeriveMaster;
                                           Collection.CreateNft metadataUri] in
                             (exists msg,
                                CreateCollection.createNft svc
                                  (CreateCollection.SOLANA_RPC_URL env) master
                                  (CreateCollection.nftInput metadataUri) = Threw msg
                                /\ run = ((l ++ steps)%list, Threw msg))
                             \/ (exists mint sig,
                                   CreateCollection.createNft svc
                                     (CreateCollection.SOLANA_RPC_URL env) master
                                     (CreateCollection.nftInput metadataUri)
                                   = Ok (mint, sig)
                                   /\ run = ((l ++ steps)%list,
                                             Ok (respond 200
                                                   (CreateCollection.created mint
                                                      metadataUri imageUri sig))))))).
Proof.
  intros jwt run fetch pinImage pinMeta. subst run.
  unfold CreateCollection.createCollection. fold jwt.
  case_decide as Hjwt; [left; by eexists|].
  unfold mbind, Logged_bind, call, raise, Collection.pinnedUri, mret, Logged_ret.
  destruct (CreateCollection.fetchImage svc _) as [[ok image]|msg] eqn:Hfetch;
    [|right; left; by eexists].
  destruct ok; cbn [fst snd negb]; [|right; left; by eexists].
  fold fetch. fold (pinImage image).
  destruct (CreateCollection.pinFile svc jwt "lossy-collection.jpg" _ image)
    as [imgData|msg] eqn:Himg.
  2:{ right; right; left. eexists _, _. by rewrite <- app_assoc. }
  destruct (IpfsHash imgData) as [[|ch rest]|] eqn:Hih.
  { right; right; left. eexists _, _. by rewrite <- app_assoc. }
  2:{ right; right; left. eexists _, _. by rewrite <- app_assoc. }
  right; right; right. exists image, imgData, (String ch rest).
  split; [done|]. split; [done|]. split; [done|]. cbv zeta.
  fold (pinMeta (Collection.gatewayUri (String ch rest))).
  destruct (CreateCollection.pinFile svc jwt "lossy-collection-metadata.json" _ _)
    as [metaData|msg] eqn:Hmeta.
  2:{ left. eexists. by rewrite <- !app_assoc. }
  destruct (IpfsHash metaData) as [[|ch' rest']|] eqn:Hmh.
  { left. eexists. by rewrite <- !app_assoc. }
  2:{ left. eexists. by rewrite <- !app_assoc. }
  right. exists metaData, (String ch' rest'). split; [done|]. split; [done|].
  destruct (CreateCollection.wallet_masterKeypair svc) as [master|msg] eqn:Hmaster.
  2:{ left. eexists. by rewrite <- !app_assoc. }
  right. exists master. split; [done|].
  destruct (CreateCollection.createNft svc _ master _) as [[mint sig]|msg] eqn:Hnft.
  - right. exists mint, sig. split; [done|]. cbn. by rewrite <- !app_assoc.
  - left. exists msg. split; [done|]. by rewrite <- !app_assoc.
Qed.

Lemma strict_eq_lit_spec v lit : strict_eq_lit v lit = true <-> v = QStr lit.
Proof.
  unfold strict_eq_lit. destruct v as [|s|]; try done.
  case_decide; [by subst|]. split; [done|]. by intros [= ->].
Qed.

Lemma secret_cases v lit : v = QStr lit \/ v <> QStr lit.
Proof.
  destruct (strict_eq_lit v lit) eqn:Hs.
  - left. by apply strict_eq_lit_spec.
  - right. intros Heq%strict_eq_lit_spec. congruence.
Qed.

Lemma create_handler_run svc env req l :
  CreateCollection.method req <> "OPTIONS" ->
  CreateCollection.q_secret req = QStr "lossy2026" ->
  CreateCollection.handler svc env req l
  = match CreateCollection.createCollection svc env l with
    | (l', Ok r) => (l', r)
    | (l', Threw msg) => (l', respond 500 (JObj [("error", JStr msg)]))
    end.
Proof.
  intros Hm Hs. unfold CreateCollection.handler. rewrite decide_False by done.
  rewrite Hs. reflexivity.
Qed.

Lemma create_handler_guarded svc env req l :
  CreateCollection.method req = "OPTIONS"
  \/ CreateCollection.q_secret req <> QStr "lossy2026" ->
  fst (CreateCollection.handler svc env req l) = l
  /\ (code (snd (CreateCollection.handler svc env req l)) = 200 ->
      CreateCollection.method req = "OPTIONS").
Proof.
  intros Hguard. unfold CreateCollection.handler.
  case_decide as Hopt; [done|]. destruct Hguard as [?|Hs]; [done|].
  unfold strict_eq_lit. destruct (CreateCollection.q_secret req) as [|s|]; cbn;
    try done.
  case_decide; [by subst|done].
Qed.

(** X15: what a successful bootstrap has linked together.  When the
    endpoint answers 200 (to other than the preflight), the image was
    fetched and pinned, the metadata document pinned next names the
    gateway URL of that image, the collection was minted with the
    gateway URL of that metadata as its [uri], and the answer reports
    these two URLs, the mint address the chain returned and the explorer
    URL of that address.  Nothing else was done, and in this order. *)
Theorem create_collection_links svc env req l l' r :
  CreateCollection.handler svc env req l = (l', r) ->
  code r = 200 ->
  CreateCollection.method req <> "OPTIONS" ->
  exists image imgData imgHash metaData metaHash master mint sig j,
    let jwt := Upload.trim (default "" (CreateCollection.PINATA_JWT env)) in
    let imageUri := "https://gateway.pinata.cloud/ipfs/" +:+ imgHash in
    let metadataUri := "https://gateway.pinata.cloud/ipfs/" +:+ metaHash in
    let document := CreateCollection.collectionMetadata imageUri in
    let blob := CreateCollection.JSON_stringify svc document in
    CreateCollection.q_secret req = QStr "lossy2026"
    /\ CreateCollection.pinFile svc jwt "lossy-collection.jpg" "image/jpeg" image
       = Ok imgData
    /\ IpfsHash imgData = Some imgHash
    /\ field "image" document = Some (JStr imageUri)
    /\ CreateCollection.pinFile svc jwt "lossy-collection-metadata.json"
         "application/json" blob = Ok metaData
    /\ IpfsHash metaData = Some metaHash
    /\ CreateCollection.createNft svc (CreateCollection.SOLANA_RPC_URL env) master
         (CreateCollection.nftInput metadataUri) = Ok (mint, sig)
    /\ CreateCollection.uri (CreateCollection.nftInput metadataUri) = metadataUri
    /\ l' = (l ++ [Collection.FetchImage CreateCollection.imageUrl;
                   Collection.Pin "lossy-collection.jpg" "image/jpeg" image;
                   Collection.Pin "lossy-collection-metadata.json"
                     "application/json" blob;
                   Collection.DeriveMaster;
                   Collection.CreateNft metadataUri])%list
    /\ body r = Some j
    /\ field "collectionMint" j = Some (JStr mint)
    /\ field "metadataUri" j = Some (JStr metadataUri)
    /\ field "imageUri" j = Some (JStr imageUri)
    /\ field "explorerUrl" j
       = Some (JStr ("https://explorer.solana.com/address/" +:+ mint)).
Proof.
  intros Hrun Hcode Hm.
  destruct (secret_cases (CreateCollection.q_secret req) "lossy2026") as [Hs|Hs].
  2:{ destruct (create_handler_guarded svc env req l (or_intror Hs)) as [_ Hopt].
      rewrite Hrun in Hopt. cbn in Hopt. by specialize (Hopt Hcode). }
  rewrite create_handler_run in Hrun by done.
  destruct (createCollection_cases svc env l)
    as [(msg & Hc) | [(msg & Hc) | [(image & msg & Hc)
        | (image & imgData & imgHash & Hfetch & Himg & Hih & Hrest)]]];
    try (rewrite Hc in Hrun; by simplify_eq).
  cbv zeta in Hrest.
  destruct Hrest as [(msg & Hc) | (metaData & metaHash & Hmeta & Hmh & Hrest)];
    [rewrite Hc in Hrun; by simplify_eq|].
  destruct Hrest as [(msg & Hc) | (master & Hmaster & Hrest)];
    [rewrite Hc in Hrun; by simplify_eq|].
  destruct Hrest as [(msg & Hnft & Hc) | (mint & sig & Hnft & Hc)];
    [rewrite Hc in Hrun; by simplify_eq|].
  rewrite Hc in Hrun. injection Hrun as <- <-.
  eexists image, imgData, imgHash, metaData, metaHash, master, mint, sig, _.
  cbv zeta. split_and!; try done.
Qed.

Lemma create_collection_links_witness :
  let out := CreateCollection.handler Samples.collection Samples.collectionEnv
               (Samples.collectionReq (QStr "lossy2026")) [] in
  exists j,
    body (snd out) = Some j
    /\ field "metadataUri" j
       = Some (JStr "https://gateway.pinata.cloud/ipfs/bafymeta")
    /\ field "imageUri" j
       = Some (JStr "https://gateway.pinata.cloud/ipfs/bafyimage")
    /\ field "explorerUrl" j
       = Some (JStr "https://explorer.solana.com/address/lossymint").
Proof.
  intros out.
  destruct (create_collection_links Samples.collection Samples.collectionEnv
              (Samples.collectionReq (QStr "lossy2026")) [] (fst out) (snd out))
    as (image & imgData & imgHash & metaData & metaHash & master & mint & sig & j
        & _ & Himg & Hih & _ & Hmeta & Hmh & Hnft & _ & _ & Hbody & _ & Hm & Hi & He);
    [apply surjective_pairing | reflexivity | discriminate |].
  cbv zeta in *.
  assert (imgHash = "bafyimage") as ->.
  { unfold Samples.collection, CreateCollection.pinFile, Samples.pinByType in Himg.
    rewrite decide_True in Himg by done. injection Himg as <-.
    by injection Hih as <-. }
  assert (Hmeta' : metaData = Samples.pinOf "bafymeta").
  { unfold Samples.collection, CreateCollection.pinFile, Samples.pinByType in Hmeta.
    rewrite decide_False in Hmeta by discriminate. by injection Hmeta as <-. }
  subst metaData. injection Hmh as <-.
  assert (mint = "lossymint") as -> by (by injection Hnft as <- _).
  exists j. split_and!; [exact Hbody | exact Hm | exact Hi | exact He].
Defined.

(** X16: the endpoint mints last, and at most once.  Whatever the
    request and however the services answer, a mint is attempted only
    after the image and the metadata were both pinned with a content
    address, under the URL of that metadata; it is then the last thing
    the endpoint does. *)
Theorem create_collection_mints_last svc env req l :
  exists steps,
    fst (CreateCollection.handler svc env req l) = (l ++ steps)%list
    /\ forall u, Collection.CreateNft u ∈ steps ->
         exists image imgData imgHash metaData metaHash,
           let jwt := Upload.trim (default "" (CreateCollection.PINATA_JWT env)) in
           let imageUri := Collection.gatewayUri imgHash in
           let blob := CreateCollection.JSON_stringify svc
                         (CreateCollection.collectionMetadata imageUri) in
           CreateCollection.pinFile svc jwt "lossy-collection.jpg" "image/jpeg"
             image = Ok imgData
           /\ IpfsHash imgData = Some imgHash
           /\ CreateCollection.pinFile svc jwt "lossy-collection-metadata.json"
                "application/json" blob = Ok metaData
           /\ IpfsHash metaData = Some metaHash
           /\ u = Collection.gatewayUri metaHash
           /\ steps = [Collection.FetchImage CreateCollection.imageUrl;
                       Collection.Pin "lossy-collection.jpg" "image/jpeg" image;
                       Collection.Pin "lossy-collection-metadata.json"
                         "application/json" blob;
                       Collection.DeriveMaster;
                       Collection.CreateNft u].
Proof.
  assert (Hnone : forall steps : list Collection.Step,
            Forall (fun e => forall u, e <> Collection.CreateNft u) steps ->
            forall P : string -> Prop,
              forall u, Collection.CreateNft u ∈ steps -> P u).
  { intros steps Hall P u Hin. rewrite Forall_forall in Hall.
    by destruct (Hall _ Hin u). }
  destruct (decide (CreateCollection.method req = "OPTIONS")) as [Hm|Hm].
  { exists []. rewrite app_nil_r.
    split; [by apply create_handler_guarded; left|]. by apply Hnone. }
  destruct (secret_cases (CreateCollection.q_secret req) "lossy2026") as [Hs|Hs].
  2:{ exists []. rewrite app_nil_r.
      split; [by apply create_handler_guarded; right|]. by apply Hnone. }
  rewrite create_handler_run by done.
  destruct (createCollection_cases svc env l)
    as [(msg & ->) | [(msg & ->) | [(image & msg & ->)
        | (image & imgData & imgHash & Hfetch & Himg & Hih & Hrest)]]].
  - exists []. rewrite app_nil_r. split; [done|]. by apply Hnone.
  - eexists. split; [reflexivity|]. apply Hnone. by repeat constructor.
  - eexists. split; [reflexivity|]. apply Hnone. by repeat constructor.
  - cbv zeta in Hrest.
    destruct Hrest as [(msg & ->) | (metaData & metaHash & Hmeta & Hmh & Hrest)].
    { eexists. split; [reflexivity|]. apply Hnone. by repeat constructor. }
    destruct Hrest as [(msg & ->) | (master & Hmaster & Hrest)].
    { eexists. split; [reflexivity|]. apply Hnone. by repeat constructor. }
    assert (Hlast : forall u,
              Collection.CreateNft u
              ∈ [Collection.FetchImage CreateCollection.imageUrl;
                 Collection.Pin "lossy-collection.jpg" "image/jpeg" image;
                 Collection.Pin "lossy-collection-metadata.json" "application/json"
                   (CreateCollection.JSON_stringify svc
                      (CreateCollection.collectionMetadata
                         (Collection.gatewayUri imgHash)));
                 Collection.DeriveMaster;
                 Collection.CreateNft (Collection.gatewayUri metaHash)] ->
              u = Collection.gatewayUri metaHash).
    { intros u Hin.
      repeat (apply elem_of_cons in Hin as [Hin|Hin]; [discriminate|]).
      apply elem_of_cons in Hin as [Hin|Hin]; [by injection Hin|].
      by apply elem_of_nil in Hin. }
    destruct Hrest as [(msg & Hnft & ->) | (mint & sig & Hnft & ->)];
      (eexists; split; [reflexivity|]; intros u Hin;
       apply Hlast in Hin as ->;
       exists image, imgData, imgHash, metaData, metaHash; by split_and!).
Qed.

(** ** scripts/create-collection.js *)

(** X17: the script's master key.  A seed that is base58 for exactly 64
    bytes which [Keypair.fromSecretKey] accepts is used as the secret
    key; any other seed (not base58, another length, or a key that is
    refused: the failure is swallowed) is read as a mnemonic and derived
    along [m/44'/501'/0'/0']. *)
Theorem script_keypair_fallback lib seed :
  (forall decoded kp,
     Script.bs58_decode lib seed = Ok decoded ->
     length decoded = 64%nat ->
     Script.Keypair_fromSecretKey lib decoded = Ok kp ->
     Script.getMasterKeypair lib seed = Ok kp)
  /\ ((forall decoded,
         Script.bs58_decode lib seed = Ok decoded ->
         length decoded = 64%nat ->
         exists msg, Script.Keypair_fromSecretKey lib decoded = Threw msg) ->
      Script.getMasterKeypair lib seed
      = match Script.mnemonicToSeedHex lib seed with
        | Threw msg => Threw msg
        | Ok hex =>
            match Script.derivePath lib "m/44'/501'/0'/0'" hex with
            | Threw msg => Threw msg
            | Ok key => Script.Keypair_fromSeed lib key
            end
        end).
Proof.
  split.
  - intros decoded kp Hd Hlen Hkp. unfold Script.getMasterKeypair.
    rewrite Hd. rewrite decide_True by done. by rewrite Hkp.
  - intros Hnot. unfold Script.getMasterKeypair.
    destruct (Script.bs58_decode lib seed) as [decoded|?] eqn:Hd; [|done].
    case_decide as Hlen; [|done].
    destruct (Hnot decoded eq_refl Hlen) as [msg ->]. done.
Qed.

Lemma script_keypair_fallback_witness :
  Script.getMasterKeypair (Samples.lib 0) "abandon ability able"
  = Ok {| publicKey := "master" |}.
Proof.
  rewrite (proj2 (script_keypair_fallback (Samples.lib 0) "abandon ability able"));
    [reflexivity|].
  intros decoded Hd. discriminate Hd.
Defined.

Lemma unset_some s : s <> "" -> Script.unset (Some s) = false.
Proof. by destruct s. Qed.

Lemma script_env_ready env :
  (Script.unset (Script.SOLANA_RPC_URL env)
   || Script.unset (Script.PINATA_JWT env)
   || Script.unset (Script.MASTER_WALLET_SEED env)) = false ->
  exists rpc jwt seed,
    Script.SOLANA_RPC_URL env = Some rpc /\ rpc <> ""
    /\ Script.PINATA_JWT env = Some jwt /\ jwt <> ""
    /\ Script.MASTER_WALLET_SEED env = Some seed /\ seed <> "".
Proof.
  destruct env as [[[|? ?]|] [[|? ?]|] [[|? ?]|]]; cbn; try done.
  intros _. by eexists _, _, _.
Qed.

(** X18: the script spends nothing it cannot afford.  It ends with
    [process.exit(1)] before anything is read, pinned or minted when one
    of the three environment variables is missing or empty (nothing is
    done at all), and when the master wallet holds less than 15,000,000
    lamports (only the key was derived and the balance queried). *)
Theorem script_exits_before_upload lib env dirname l :
  (Script.unset (Script.SOLANA_RPC_URL env) = true
   \/ Script.unset (Script.PINATA_JWT env) = true
   \/ Script.unset (Script.MASTER_WALLET_SEED env) = true ->
   Script.run lib env dirname l = (l, Script.Exit 1))
  /\ (forall rpc jwt seed keypair balance,
        Script.SOLANA_RPC_URL env = Some rpc -> rpc <> "" ->
        Script.PINATA_JWT env = Some jwt -> jwt <> "" ->
        Script.MASTER_WALLET_SEED env = Some seed -> seed <> "" ->
        Script.getMasterKeypair lib seed = Ok keypair ->
        Script.connection_getBalance lib rpc (publicKey keypair) = Ok balance ->
        balance < 15000000 ->
        Script.run lib env dirname l
        = ((l ++ [Collection.DeriveMaster;
                  Collection.GetBalance (publicKey keypair)])%list,
           Script.Exit 1)).
Proof.
  split.
  - intros Hunset. unfold Script.run.
    replace (_ || _ || _) with true; [done|].
    symmetry. rewrite !orb_true_iff. tauto.
  - intros rpc jwt seed keypair balance Hrpc Hrpc' Hjwt Hjwt' Hseed Hseed'
      Hkp Hbal Hlow.
    unfold Script.run. rewrite Hrpc, Hjwt, Hseed.
    rewrite !unset_some by done. cbn [orb from_option id].
    unfold Script.funding, mbind, Logged_bind, call, mret, Logged_ret.
    rewrite Hkp, Hbal. rewrite (proj2 (Z.ltb_lt _ _) Hlow).
    by rewrite <- app_assoc.
Qed.

Lemma script_exits_before_upload_witness :
  Script.run (Samples.lib 14999999) Samples.scriptEnv "/repo/scripts" []
  = ([Collection.DeriveMaster; Collection.GetBalance "master"], Script.Exit 1).
Proof.
  apply (proj2 (script_exits_before_upload (Samples.lib 14999999)
                  Samples.scriptEnv "/repo/scripts" [])
           "https://rpc.example/solana" "jwt-token" "abandon ability able"
           {| publicKey := "master" |} 14999999);
    [reflexivity | discriminate | reflexivity | discriminate | reflexivity
    | discriminate | reflexivity | reflexivity | reflexivity].
Defined.

(** X19: the script reports a collection only after paying checks and
    both uploads.  When it runs through, the environment was complete,
    the master wallet held at least 15,000,000 lamports, the image read
    from [IMAGE_PATH] and then the metadata naming its gateway URL were
    pinned with a content address, and the collection was created with
    the gateway URL of the metadata as its [uri]: six steps, in this
    order. *)
Theorem script_done_means_funded lib env dirname l l' mint :
  Script.run lib env dirname l = (l', Script.Done mint) ->
  exists rpc jwt seed keypair balance image imgData imgHash metaData metaHash,
    let imageUri := "https://gateway.pinata.cloud/ipfs/" +:+ imgHash in
    let metadataUri := "https://gateway.pinata.cloud/ipfs/" +:+ metaHash in
    let blob := Script.JSON_stringify lib (Script.metadata imageUri) in
    Script.SOLANA_RPC_URL env = Some rpc
    /\ Script.PINATA_JWT env = Some jwt
    /\ Script.MASTER_WALLET_SEED env = Some seed
    /\ Script.getMasterKeypair lib seed = Ok keypair
    /\ Script.connection_getBalance lib rpc (publicKey keypair) = Ok balance
    /\ 15000000 <= balance
    /\ Script.fs_readFile lib (Script.IMAGE_PATH lib dirname) = Ok image
    /\ Script.pinFile lib jwt "lossy-collection.jpg" "image/jpeg" image = Ok imgData
    /\ IpfsHash imgData = Some imgHash
    /\ field "image" (Script.metadata imageUri) = Some (JStr imageUri)
    /\ Script.pinFile lib jwt "lossy-collection-metadata.json" "application/json"
         blob = Ok metaData
    /\ IpfsHash metaData = Some metaHash
    /\ Script.nfts_create lib rpc keypair (Script.createInput metadataUri) = Ok mint
    /\ field "uri" (Script.createInput metadataUri) = Some (JStr metadataUri)
    /\ l' = (l ++ [Collection.DeriveMaster;
                   Collection.GetBalance (publicKey keypair);
                   Collection.ReadImage (Script.IMAGE_PATH lib dirname);
                   Collection.Pin "lossy-collection.jpg" "image/jpeg" image;
                   Collection.Pin "lossy-collection-metadata.json"
                     "application/json" blob;
                   Collection.CreateNft metadataUri])%list.
Proof.
  unfold Script.run.
  destruct (_ || _ || _) eqn:Henv; [done|].
  destruct (script_env_ready env Henv)
    as (rpc & jwt & seed & Hrpc & _ & Hjwt & _ & Hseed & _).
  rewrite Hrpc, Hjwt, Hseed. cbn [from_option id].
  unfold Script.funding, Script.mintCollection, Script.uploadImageToPinata,
    Script.uploadMetadataToPinata, Collection.pinnedUri,
    mbind, Logged_bind, call, raise, mret, Logged_ret.
  destruct (Script.getMasterKeypair lib seed) as [keypair|?] eqn:Hkp; [|done].
  destruct (Script.connection_getBalance lib rpc (publicKey keypair))
    as [balance|?] eqn:Hbal; [|done].
  destruct (balance <? 15000000) eqn:Hlow; [done|]. apply Z.ltb_ge in Hlow.
  destruct (Script.fs_readFile lib (Script.IMAGE_PATH lib dirname))
    as [image|?] eqn:Himage; [|done].
  destruct (Script.pinFile lib jwt "lossy-collection.jpg" _ image)
    as [imgData|?] eqn:Himg; [|done].
  destruct (IpfsHash imgData) as [[|ch rest]|] eqn:Hih; [done| |done].
  destruct (Script.pinFile lib jwt "lossy-collection-metadata.json" _ _)
    as [metaData|?] eqn:Hmeta; [|done].
  destruct (IpfsHash metaData) as [[|ch' rest']|] eqn:Hmh; [done| |done].
  destruct (Script.nfts_create lib rpc keypair _) as [mint'|?] eqn:Hnft; [|done].
  intros [= <- <-].
  exists rpc, jwt, seed, keypair, balance, image, imgData, (String ch rest),
    metaData, (String ch' rest').
  cbv zeta. split_and!; try done.
  by rewrite <- !app_assoc.
Qed.

Lemma script_done_means_funded_witness :
  exists balance,
    Script.connection_getBalance (Samples.lib 15000000)
      "https://rpc.example/solana" "master" = Ok balance
    /\ 15000000 <= balance.
Proof.
  destruct (script_done_means_funded (Samples.lib 15000000) Samples.scriptEnv
              "/repo/scripts" []
              (fst (Script.run (Samples.lib 15000000) Samples.scriptEnv
                      "/repo/scripts" []))
              "lossymint")
    as (rpc & jwt & seed & keypair & balance & image & imgData & imgHash
        & metaData & metaHash & Hrpc & _ & Hseed & Hkp & Hbal & Hfunded & _);
    [vm_compute; reflexivity|].
  exists balance. split; [|exact Hfunded].
  injection Hrpc as <-. injection Hseed as <-.
  assert (keypair = {| publicKey := "master" |}) as ->
    by (symmetry; by injection Hkp).
  exact Hbal.
Defined.

(** X20: the two bootstrap paths describe the same collection.  For the
    same image URL the script and the endpoint pin the same metadata
    document, whose [seller_fee_basis_points] of 1500 is the script's
    [SELLER_FEE_BPS] and the endpoint's [percentAmount(15, 2)]; both
    create the NFT under the same name and symbol, as a collection, with
    the same creator holding the whole share. *)
Theorem bootstrap_paths_agree imageUri metadataUri :
  let input := CreateCollection.nftInput metadataUri in
  let created := Script.createInput metadataUri in
  Script.metadata imageUri = CreateCollection.collectionMetadata imageUri
  /\ field "seller_fee_basis_points" (Script.metadata imageUri)
     = Some (JNum (inject_Z Script.SELLER_FEE_BPS))
  /\ fst (CreateCollection.sellerFeeBasisPoints input)
     * 10 ^ snd (CreateCollection.sellerFeeBasisPoints input)
     = Script.SELLER_FEE_BPS
  /\ field "name" created = Some (JStr (CreateCollection.name input))
  /\ field "symbol" created = Some (JStr (CreateCollection.symbol input))
  /\ field "uri" created = Some (JStr (CreateCollection.uri input))
  /\ field "isCollection" created = Some (JBool (CreateCollection.isCollection input))
  /\ field "creators" created
     = Some (JArr [JObj [("address", JStr (CreateCollection.creatorAddress input));
                         ("share", JNum (inject_Z (CreateCollection.creatorShare input)))]]).
Proof. cbn. by split_and!. Qed.

Lemma create_collection_mints_last_witness :
  exists image imgData metaData,
    CreateCollection.pinFile Samples.collection "jwt-token" "lossy-collection.jpg"
      "image/jpeg" image = Ok imgData
    /\ CreateCollection.pinFile Samples.collection "jwt-token"
         "lossy-collection-metadata.json" "application/json"
         (CreateCollection.JSON_stringify Samples.collection
            (CreateCollection.collectionMetadata
               (Collection.gatewayUri "bafyimage"))) = Ok metaData
    /\ IpfsHash metaData = Some "bafymeta".
Proof.
  destruct (create_collection_mints_last Samples.collection Samples.collectionEnv
              (Samples.collectionReq (QStr "lossy2026")) [])
    as (steps & Hsteps & Hlast).
  assert (Hin : Collection.CreateNft (Collection.gatewayUri "bafymeta") ∈ steps).
  { vm_compute in Hsteps. subst steps. rewrite !elem_of_cons. auto 10. }
  destruct (Hlast _ Hin)
    as (image & imgData & imgHash & metaData & metaHash
        & Himg & Hih & Hmeta & Hmh & Hu & _).
  cbv zeta in *.
  assert (imgHash = "bafyimage") as ->.
  { unfold Samples.collection, CreateCollection.pinFile, Samples.pinByType in Himg.
    rewrite decide_True in Himg by done. injection Himg as <-.
    by injection Hih as <-. }
  assert (metaData = Samples.pinOf "bafymeta") as ->.
  { unfold Samples.collection, CreateCollection.pinFile, Samples.pinByType in Hmeta.
    rewrite decide_False in Hmeta by discriminate. by injection Hmeta as <-. }
  exists image, imgData, (Samples.pinOf "bafymeta").
  split_and!; [exact Himg | exact Hmeta | reflexivity].
Defined.

(** ** api/recover.js: who gets in *)

Lemma recover_inner_code svc req w :
  let r := snd (try_catch
                  (if falsy (Recover.q_sessionId req) then Recover.scan svc
                   else Recover.recoverSession svc (Recover.q_sessionId req)) w) in
  code r = 200 \/ code r = 404 \/ code r = 500.
Proof.
  cbv zeta. unfold try_catch. destruct (falsy (Recover.q_sessionId req)).
  - unfold Recover.scan, mbind, M_bind.
    destruct (redis_get counterKey w) as [w1 [counter|?]]; [|auto].
    match goal with |- context [Recover.scanLoop svc ?n ?i ?t ?f w1] =>
      destruct (Recover.scanLoop svc n i t f w1) as [w2 [found|?]]
    end; auto.
  - unfold Recover.recoverSession, mbind, M_bind.
    destruct (redis_getJson _ w) as [w1 [[s|]|?]]; [|auto|auto].
    case_decide; [auto|].
    rewrite getConnection_run.
    destruct (solana_getConnection svc) as [c|?]; [|auto].
    rewrite getSessionKeypair_run.
    destruct (wallet_getSessionKeypair svc (sessionIndex s)) as [kp|?]; [|auto].
    rewrite getUsdcBalance_run.
    destruct (solana_getUsdcBalance svc c (publicKey kp)) as [bal|?]; [|auto].
    destruct (Qltb bal (REQUIRED_USDC svc)); [auto|].
    unfold callPoll, mbind, M_bind, emit. cbn.
    match goal with |- context [pollHandler svc ?q ?w0] =>
      destruct (pollHandler svc q w0) as [w2 [out|?]]
    end; auto.
Qed.

(** X21: exactly who a GET request is refused to.  The answer is 401
    if and only if the [secret] parameter is none of: the configured
    [RECOVER_SECRET], the built-in ['dayafterday2026'], or absent while
    no [RECOVER_SECRET] is configured.  So a deployment without
    [RECOVER_SECRET] accepts requests that carry no secret at all, and a
    repeated [secret] parameter (an array) is always refused. *)
Theorem recover_401_iff svc env req w :
  Recover.method req = "GET" ->
  let r := snd (Recover.handler svc env req w) in
  (code r = 401 <->
   ~ ((Recover.q_secret req = QUndef /\ Recover.RECOVER_SECRET env = None)
      \/ exists s, Recover.q_secret req = QStr s
           /\ (Recover.RECOVER_SECRET env = Some s \/ s = "dayafterday2026")))
  /\ (Recover.RECOVER_SECRET env = None -> Recover.q_secret req = QUndef ->
      code r <> 401)
  /\ (forall first rest, Recover.q_secret req = QArr first rest -> code r = 401).
Proof.
  intros Hm r.
  assert (Hiff : code r = 401 <->
                 Recover.authorized env (Recover.q_secret req) = false).
  { subst r. destruct (Recover.authorized env (Recover.q_secret req)) eqn:Ha.
    - rewrite recover_accepted by done.
      pose proof (recover_inner_code svc req w) as Hcode. cbv zeta in Hcode.
      split; [|done]. intros H401. rewrite H401 in Hcode.
      by destruct Hcode as [?|[?|?]].
    - unfold Recover.handler. rewrite Hm, Ha. done. }
  split_and!.
  - rewrite Hiff, <- authorized_spec.
    by destruct (Recover.authorized env (Recover.q_secret req)).
  - intros Henv Hs. rewrite Hiff.
    assert (Recover.authorized env (Recover.q_secret req) = true) as ->; [|done].
    apply authorized_spec. by left.
  - intros first rest Hs. apply Hiff.
    unfold Recover.authorized. rewrite Hs. by destruct (Recover.RECOVER_SECRET env).
Qed.

Lemma recover_401_iff_witness :
  let svc := Demo.services 5 Demo.noBalance in
  let w := Demo.worldOf (Demo.storeOf None []) in
  code (snd (Recover.handler svc {| Recover.RECOVER_SECRET := None |}
               (Demo.recoverReq QUndef QUndef) w)) <> 401.
Proof.
  intros svc w.
  apply (proj1 (proj2 (recover_401_iff svc {| Recover.RECOVER_SECRET := None |}
                         (Demo.recoverReq QUndef QUndef) w eq_refl)));
    reflexivity.
Defined.
